(** * Noor MCP Code Assistant: the dispatch router and its two request handlers

    A shallow embedding of [src/config.py] and [src/mcp_server.py].

    - Python values that cross the two boundaries of the server (the argument
      mapping of an invocation, the JSON body of the remote reply) are the
      inductive [pyval]; a [str] is a Rocq [string] whose characters are code
      points below 256.
    - A Python [float] is carried by what the program observes of it: its
      [repr] and its position relative to zero.  No float arithmetic occurs in
      the program.
    - Effects are explicit: a computation returns the chronological list of
      its events (log records, HTTP POSTs) together with either a value or
      a raised exception.  The remote service is an oracle from the request to
      the reply.
    - Exceptions are the subclasses of Python's [Exception]; signals outside
      that hierarchy (task cancellation, interpreter exit) are not modelled. *)

From Stdlib Require Import String Ascii List ZArith Bool Lia.
From Stdlib Require Import DecimalString.
Import ListNotations.

Local Open Scope list_scope.
Local Open Scope string_scope.

(* ------------------------------------------------------------------ *)
(** ** Python values *)

(** Position of a float relative to zero; [FNaN] compares false with
    everything and is truthy. *)
Inductive float_sign := FNeg | FZero | FPos | FNaN.

Record pyfloat := { float_repr : string; float_sign_of : float_sign }.

#[local] Set Warnings "-register-all".
Inductive pyval :=
| PNone
| PBool (b : bool)
| PInt (z : Z)
| PFloat (f : pyfloat)
| PStr (s : string)
| PList (l : list pyval)
| PDict (d : list (string * pyval)).

(** A [dict] with string keys, in insertion order. *)
Definition dict := list (string * pyval).

Module Py.

(** [type(v).__name__] *)
Definition type_name (v : pyval) : string :=
  match v with
  | PNone => "NoneType"
  | PBool _ => "bool"
  | PInt _ => "int"
  | PFloat _ => "float"
  | PStr _ => "str"
  | PList _ => "list"
  | PDict _ => "dict"
  end.

(** [bool(v)] *)
Definition truthy (v : pyval) : bool :=
  match v with
  | PNone => false
  | PBool b => b
  | PInt z => negb (Z.eqb z 0)
  | PFloat f => match float_sign_of f with FZero => false | _ => true end
  | PStr s => negb (String.eqb s "")
  | PList l => match l with [] => false | _ => true end
  | PDict d => match d with [] => false | _ => true end
  end.

Definition nl : string := String (ascii_of_nat 10) "".

(** [sep.join(parts)] on strings. *)
Fixpoint join (sep : string) (parts : list string) : string :=
  match parts with
  | [] => ""
  | [p] => p
  | p :: rest => p ++ sep ++ join sep rest
  end.

(** *** [str.strip()] *)

(** [str.isspace] on a code point below 256. *)
Definition is_space (c : ascii) : bool :=
  let n := nat_of_ascii c in
  (((9 <=? n) && (n <=? 13)) || ((28 <=? n) && (n <=? 32))
   || (n =? 133) || (n =? 160))%nat.

Fixpoint lstrip (s : string) : string :=
  match s with
  | "" => ""
  | String c s' => if is_space c then lstrip s' else s
  end.

Fixpoint rstrip (s : string) : string :=
  match s with
  | "" => ""
  | String c s' =>
      let r := rstrip s' in
      if is_space c && String.eqb r "" then "" else String c r
  end.

Definition strip (s : string) : string := rstrip (lstrip s).

(** *** [str(v)] and [repr(v)] *)

Definition str_of_int (z : Z) : string := NilZero.string_of_int (Z.to_int z).

Definition hex_digit (n : nat) : ascii :=
  if (n <? 10)%nat then ascii_of_nat (48 + n) else ascii_of_nat (87 + n).

Fixpoint contains_char (c : ascii) (s : string) : bool :=
  match s with
  | "" => false
  | String c' s' => Ascii.eqb c c' || contains_char c s'
  end.

Definition squote : ascii := "'"%char.
Definition dquote : ascii := ascii_of_nat 34.
Definition backslash : ascii := "\"%char.

(** One character of [repr] of a [str], for the chosen quote. *)
Definition repr_char (quote c : ascii) : string :=
  let n := nat_of_ascii c in
  if Ascii.eqb c quote || Ascii.eqb c backslash then String backslash (String c "")
  else if (n =? 9)%nat then String backslash "t"
  else if (n =? 10)%nat then String backslash "n"
  else if (n =? 13)%nat then String backslash "r"
  else if ((n <? 32) || (n =? 127) || ((128 <=? n) && (n <=? 160)) || (n =? 173))%nat
       then String backslash (String "x"%char
              (String (hex_digit (n / 16)) (String (hex_digit (n mod 16)) "")))
  else String c "".

Definition repr_str (s : string) : string :=
  let quote :=
    if contains_char squote s && negb (contains_char dquote s)
    then dquote else squote in
  String quote
    ((fix go (t : string) : string :=
        match t with
        | "" => String quote ""
        | String c t' => repr_char quote c ++ go t'
        end) s).

Fixpoint repr (v : pyval) : string :=
  match v with
  | PNone => "None"
  | PBool true => "True"
  | PBool false => "False"
  | PInt z => str_of_int z
  | PFloat f => float_repr f
  | PStr s => repr_str s
  | PList l =>
      "[" ++ join ", " ((fix items (l : list pyval) : list string :=
                           match l with
                           | [] => []
                           | x :: r => repr x :: items r
                           end) l) ++ "]"
  | PDict d =>
      "{" ++ join ", " ((fix items (d : list (string * pyval)) : list string :=
                           match d with
                           | [] => []
                           | (k, x) :: r => (repr_str k ++ ": " ++ repr x) :: items r
                           end) d) ++ "}"
  end.

(** [str(v)], which is also what an f-string field [{v}] produces. *)
Definition str (v : pyval) : string :=
  match v with
  | PStr s => s
  | _ => repr v
  end.

End Py.

(* ------------------------------------------------------------------ *)
(** ** Exceptions, events and the effect monad *)

(** The exception classes the handlers distinguish.  [TimeoutException]
    stands for the httpx class and its subclasses (the subclass name is
    [tyname]); [OtherException] is any other subclass of [Exception]. *)
Inductive exn :=
| ConnectError (msg : string)
| TimeoutException (tyname msg : string)
| HTTPStatusError (msg : string) (status_code : Z) (text : string)
| OtherException (tyname msg : string).

(** [str(e)] *)
Definition exn_str (e : exn) : string :=
  match e with
  | ConnectError m | TimeoutException _ m
  | HTTPStatusError m _ _ | OtherException _ m => m
  end.

(** [type(e).__name__] *)
Definition exn_type_name (e : exn) : string :=
  match e with
  | ConnectError _ => "ConnectError"
  | TimeoutException n _ => n
  | HTTPStatusError _ _ _ => "HTTPStatusError"
  | OtherException n _ => n
  end.

Inductive outcome (A : Type) :=
| Ok (a : A)
| Raise (e : exn).
Arguments Ok {A} a.
Arguments Raise {A} e.

Record Request := {
  url : string;
  json : pyval;
  headers : list (string * string);
  timeout : pyfloat
}.

(** What the handlers use of an [httpx.Response]: the status, the raw body,
    the result of [response.json()], and the message httpx gives the
    [HTTPStatusError] it raises for this response. *)
Record Response := {
  status_code : Z;
  response_text : string;
  response_json : outcome pyval;
  status_error : string
}.

(** The remote service together with the network: what [client.post]
    does on a request. *)
Definition remote := Request -> outcome Response.

Inductive log_level := INFO | ERROR.

Inductive event :=
| Log (level : log_level) (msg : string)
| HttpPost (r : Request).

(** A computation: the events it performed, in order, and how it ended. *)
Definition M (A : Type) : Type := (list event * outcome A)%type.

Definition ret {A} (a : A) : M A := ([], Ok a).

Definition bind {A B} (m : M A) (k : A -> M B) : M B :=
  match m with
  | (t, Ok a) => ((t ++ fst (k a))%list, snd (k a))
  | (t, Raise e) => (t, Raise e)
  end.

Definition lift {A} (o : outcome A) : M A := ([], o).

(** [try: body except Exception as e: handler(e)] *)
Definition try_except {A} (body : M A) (handler : exn -> M A) : M A :=
  match body with
  | (t, Ok a) => (t, Ok a)
  | (t, Raise e) => ((t ++ fst (handler e))%list, snd (handler e))
  end.

Definition logger_info (msg : string) : M unit := ([Log INFO msg], Ok tt).
Definition logger_error (msg : string) : M unit := ([Log ERROR msg], Ok tt).

(** [await client.post(url, json=..., headers=...)] on a client built with
    [timeout=...]. The event records the call with its arguments; what httpx
    does with them, from encoding the payload to reading the reply, is the
    oracle's answer. A payload of strings is always encodable, so for such a
    payload the call is a request on the wire. *)
Definition client_post (http : remote) (r : Request) : M Response :=
  ([HttpPost r], http r).

Declare Scope py_scope.
Delimit Scope py_scope with py.
Notation "x <- m ;; k" := (bind m (fun x => k))
  (at level 61, m at next level, right associativity) : py_scope.
Notation "m ;;; k" := (bind m (fun _ => k))
  (at level 61, right associativity) : py_scope.
Local Open Scope py_scope.

Definition events {A} (m : M A) : list event := fst m.
Definition result {A} (m : M A) : outcome A := snd m.

(* ------------------------------------------------------------------ *)
(** ** Python operations that can raise *)

Module Op.

Definition attribute_error {A} (v : pyval) (attr : string) : outcome A :=
  Raise (OtherException "AttributeError"
           ("'" ++ Py.type_name v ++ "' object has no attribute '" ++ attr ++ "'")).

Fixpoint dict_get (d : dict) (key : string) : option pyval :=
  match d with
  | [] => None
  | (k, v) :: rest => if String.eqb k key then Some v else dict_get rest key
  end.

(** [d.get(key, default)] on a value known to be a dict. *)
Definition get_default (d : dict) (key : string) (default : pyval) : pyval :=
  match dict_get d key with Some v => v | None => default end.

(** [v.get(key, default)] on any value. *)
Definition get (v : pyval) (key : string) (default : pyval) : outcome pyval :=
  match v with
  | PDict d => Ok (get_default d key default)
  | _ => attribute_error v "get"
  end.

(** [v[key]] with a string key. *)
Definition getitem (v : pyval) (key : string) : outcome pyval :=
  match v with
  | PDict d =>
      match dict_get d key with
      | Some x => Ok x
      | None => Raise (OtherException "KeyError" (Py.repr_str key))
      end
  | PList _ =>
      Raise (OtherException "TypeError"
               "list indices must be integers or slices, not str")
  | PStr _ =>
      Raise (OtherException "TypeError" "string indices must be integers, not 'str'")
  | _ =>
      Raise (OtherException "TypeError"
               ("'" ++ Py.type_name v ++ "' object is not subscriptable"))
  end.

(** [v.strip()] *)
Definition strip (v : pyval) : outcome string :=
  match v with
  | PStr s => Ok (Py.strip s)
  | _ => attribute_error v "strip"
  end.

(** [v > 0] *)
Definition gt_zero (v : pyval) : outcome bool :=
  match v with
  | PBool b => Ok b
  | PInt z => Ok (0 <? z)%Z
  | PFloat f => Ok (match float_sign_of f with FPos => true | _ => false end)
  | _ =>
      Raise (OtherException "TypeError"
               ("'>' not supported between instances of '" ++ Py.type_name v
                ++ "' and 'int'"))
  end.

(** The items of a sequence handed to [str.join], which must all be strings;
    [i] is the index of the head of [parts] in the original sequence. *)
Fixpoint strings_from (i : nat) (parts : list pyval) : outcome (list string) :=
  match parts with
  | [] => Ok []
  | PStr s :: rest =>
      match strings_from (S i) rest with
      | Ok l => Ok (s :: l)
      | Raise e => Raise e
      end
  | v :: _ =>
      Raise (OtherException "TypeError"
               ("sequence item " ++ Py.str_of_int (Z.of_nat i)
                ++ ": expected str instance, " ++ Py.type_name v ++ " found"))
  end.

(** [sep.join(parts)] on a list of arbitrary values. *)
Definition join (sep : string) (parts : list pyval) : outcome string :=
  match strings_from 0 parts with
  | Ok l => Ok (Py.join sep l)
  | Raise e => Raise e
  end.

End Op.

(* ------------------------------------------------------------------ *)
(** ** config.py *)

Record Config := {
  RAG_API_BASE_URL : string;
  RAG_CHAT_ENDPOINT : string;
  UNIVERSAL_RAG_ENDPOINT : string;
  DEFAULT_SESSION_ID : string;
  REQUEST_TIMEOUT : pyfloat;
  ENABLE_DOTNET_RAG : bool;
  ENABLE_UNIVERSAL_RAG : bool
}.

Definition rag_chat_url (config : Config) : string :=
  RAG_API_BASE_URL config ++ RAG_CHAT_ENDPOINT config.

Definition universal_rag_url (config : Config) : string :=
  RAG_API_BASE_URL config ++ UNIVERSAL_RAG_ENDPOINT config.

(** The configuration when no environment variable is set. *)
Definition default_config : Config := {|
  RAG_API_BASE_URL := "http://localhost:8900";
  RAG_CHAT_ENDPOINT := "/api/chat/rag";
  UNIVERSAL_RAG_ENDPOINT := "/api/chat/universal";
  DEFAULT_SESSION_ID := "claude-desktop-session";
  REQUEST_TIMEOUT := {| float_repr := "120.0"; float_sign_of := FPos |};
  ENABLE_DOTNET_RAG := true;
  ENABLE_UNIVERSAL_RAG := true
|}.

(* ------------------------------------------------------------------ *)
(** ** mcp.types *)

Record TextContent := { type : string; text : string }.

Record CallToolResult := { content : list TextContent; isError : bool }.

Record Tool := { name : string; description : string; inputSchema : pyval }.

(** [CallToolResult(content=[TextContent(type="text", text=t)], isError=True)] *)
Definition error_result (t : string) : CallToolResult :=
  {| content := [ {| type := "text"; text := t |} ]; isError := true |}.

(** [CallToolResult(content=[TextContent(type="text", text=t)])] *)
Definition text_result (t : string) : CallToolResult :=
  {| content := [ {| type := "text"; text := t |} ]; isError := false |}.

(** The text of the single block of a result. *)
Definition result_text (r : CallToolResult) : string :=
  match content r with
  | [c] => text c
  | _ => ""
  end.

(* ------------------------------------------------------------------ *)
(** ** mcp_server.py: the tool catalog *)

Definition code_assistant_description : string :=
  Py.strip "
            Intelligent Code Assistant powered by RAG (Retrieval-Augmented Generation).

            Use this tool when you need to:
            - Generate C#/.NET code based on existing codebase patterns
            - Query information about project architecture and structure
            - Get code snippets that follow the project's conventions
            - Find existing methods, DTOs, services, or interfaces
            - Generate SQL queries for the project's database schema
            - Understand how specific features are implemented

            The tool has access to complete codebase context including:
            - ASP.NET Core 8 APIs and Controllers
            - PostgreSQL/SQL Server database schemas
            - Service interfaces and implementations
            - DTOs, Entities, and ViewModels
            - Repository patterns and data access layers
            - Clean Architecture project structures

            Returns detailed code examples with comprehensive explanations.
            ".

Definition universal_code_assistant_description : string :=
  Py.strip "
            Universal Code Assistant powered by RAG for ANY programming language.

            Use this tool when you need to:
            - Query any non-.NET codebase (Python, Java, React, Go, Rust, PHP, Ruby, C++, Flutter)
            - Understand project architecture and patterns for any language
            - Find existing functions, classes, components, or modules
            - Generate code following the project's conventions
            - Get code snippets with explanations

            The language/framework is configured on the server side via config.yaml.
            ".

Definition session_id_schema (config : Config) : pyval :=
  PDict [
    ("type", PStr "string");
    ("description",
     PStr ("Optional session ID for conversation continuity. "
           ++ "Use the same session_id to maintain context across multiple questions."));
    ("default", PStr (DEFAULT_SESSION_ID config))
  ].

Definition code_assistant_tool (config : Config) : Tool :=
  {| name := "code_assistant";
     description := code_assistant_description;
     inputSchema := PDict [
       ("type", PStr "object");
       ("properties", PDict [
          ("message", PDict [
             ("type", PStr "string");
             ("description",
              PStr ("Your code-related question or request. Be specific about what you need. "
                    ++ "Examples: 'Create a C# function to get employee requests by ID', "
                    ++ "'Show me how pagination is implemented in this project', "
                    ++ "'Generate a DTO for the Employee table'"))
          ]);
          ("session_id", session_id_schema config)
       ]);
       ("required", PList [PStr "message"])
     ] |}.

Definition universal_code_assistant_tool (config : Config) : Tool :=
  {| name := "universal_code_assistant";
     description := universal_code_assistant_description;
     inputSchema := PDict [
       ("type", PStr "object");
       ("properties", PDict [
          ("message", PDict [
             ("type", PStr "string");
             ("description",
              PStr ("Your code-related question or request. Be specific about what you need. "
                    ++ "Examples: 'How is authentication implemented?', "
                    ++ "'Show me the main API routes', "
                    ++ "'How is state management done in this project?'"))
          ]);
          ("session_id", session_id_schema config)
       ]);
       ("required", PList [PStr "message"])
     ] |}.

Definition tools (config : Config) : list Tool :=
  [code_assistant_tool config; universal_code_assistant_tool config].

(** The filtering loop of [list_tools]: one iteration on [tool]. *)
Definition filter_step (config : Config) (filtered_tools : list Tool) (tool : Tool)
  : list Tool :=
  if String.eqb (name tool) "code_assistant" && negb (ENABLE_DOTNET_RAG config)
  then filtered_tools
  else if String.eqb (name tool) "universal_code_assistant"
          && negb (ENABLE_UNIVERSAL_RAG config)
  then filtered_tools
  else (filtered_tools ++ [tool])%list.

Definition list_tools (config : Config) : list Tool :=
  fold_left (filter_step config) (tools config) [].

(* ------------------------------------------------------------------ *)
(** ** mcp_server.py: the request handlers *)

(** [response.raise_for_status()] of httpx: any status outside 200..299
    raises [HTTPStatusError] carrying the response. *)
Definition raise_for_status (response : Response) : outcome unit :=
  if ((200 <=? status_code response) && (status_code response <=? 299))%Z
  then Ok tt
  else Raise (HTTPStatusError (status_error response)
                (status_code response) (response_text response)).

(** [if data.get(key): result_parts.append(render(data[key]))] *)
Definition append_field (data : pyval) (key : string) (render : pyval -> pyval)
    (result_parts : list pyval) : M (list pyval) :=
  v <- lift (Op.get data key PNone) ;;
  if Py.truthy v
  then x <- lift (Op.getitem data key) ;; ret (result_parts ++ [render x])%list
  else ret result_parts.

(** [data.get("error") or data.get("message") or fallback] *)
Definition error_or_message (data : pyval) (fallback : string) : M pyval :=
  e <- lift (Op.get data "error" PNone) ;;
  if Py.truthy e then ret e
  else
    m <- lift (Op.get data "message" PNone) ;;
    if Py.truthy m then ret m else ret (PStr fallback).

(** ["\n".join(result_parts) if result_parts else fallback] *)
Definition final_response (result_parts : list pyval) (fallback : string) : M string :=
  match result_parts with
  | [] => ret fallback
  | _ => lift (Op.join Py.nl result_parts)
  end.

Definition json_headers : list (string * string) :=
  [("Content-Type", "application/json")].

(** The success mapping of [handle_code_assistant], from "Build response
    content" to [final_response]. *)
Definition code_assistant_text (data : pyval) : M string :=
  let result_parts : list pyval := [] in
  result_parts <- append_field data "answer" (fun x => x) result_parts ;;
  result_parts <-
    append_field data "sql"
      (fun x => PStr (Py.nl ++ Py.nl ++ "### Generated SQL" ++ Py.nl ++ "```sql" ++ Py.nl
                      ++ Py.str x ++ Py.nl ++ "```"))
      result_parts ;;
  result_parts <-
    append_field data "markdown" (fun x => PStr (Py.nl ++ Py.nl ++ Py.str x))
      result_parts ;;
  result_parts <-
    append_field data "needs_clarification"
      (fun x => PStr (Py.nl ++ Py.nl ++ "**Clarification Needed:** " ++ Py.str x))
      result_parts ;;
  chunks_count <- lift (Op.get data "chunks_count" (PInt 0)) ;;
  positive <- lift (Op.gt_zero chunks_count) ;;
  let result_parts :=
    if positive
    then (result_parts ++
          [PStr (Py.nl ++ Py.nl ++ "---" ++ Py.nl ++ "*Context: " ++ Py.str chunks_count
                 ++ " code chunks analyzed from your codebase*")])%list
    else result_parts in
  final_response result_parts "No response from code assistant.".

(** The body of the [try] block of [handle_code_assistant] once [data] is
    parsed: the log record, the [ok] test and the two mappings. *)
Definition code_assistant_map_response (data : pyval) : M CallToolResult :=
  ok <- lift (Op.get data "ok" PNone) ;;
  logger_info ("RAG API response received, ok=" ++ Py.str ok) ;;;
  ok <- lift (Op.get data "ok" (PBool false)) ;;
  if negb (Py.truthy ok)
  then
    error_msg <- error_or_message data "Unknown error from RAG API" ;;
    ret (error_result ("RAG API Error: " ++ Py.str error_msg))
  else
    final_response <- code_assistant_text data ;;
    ret (text_result final_response).

(** The [except] clauses of [handle_code_assistant]. *)
Definition code_assistant_except (config : Config) (e : exn) : M CallToolResult :=
  match e with
  | ConnectError _ =>
      logger_error ("Connection error to " ++ rag_chat_url config) ;;;
      ret (error_result
             ("Connection Error: Cannot reach RAG API at " ++ rag_chat_url config
              ++ Py.nl ++ Py.nl
              ++ "Please ensure your Python RAG server is running:" ++ Py.nl
              ++ "cd /path/to/your/rag-project" ++ Py.nl
              ++ "source env_container/bin/activate" ++ Py.nl
              ++ "uvicorn main:app --reload --port 8900"))
  | TimeoutException _ _ =>
      logger_error ("Timeout after " ++ float_repr (REQUEST_TIMEOUT config) ++ "s") ;;;
      ret (error_result
             ("Request Timeout: The RAG API did not respond within "
              ++ float_repr (REQUEST_TIMEOUT config) ++ " seconds."
              ++ Py.nl ++ Py.nl
              ++ "Try simplifying your question or increasing REQUEST_TIMEOUT in .env"))
  | HTTPStatusError _ code body =>
      logger_error ("HTTP error: " ++ Py.str_of_int code) ;;;
      ret (error_result ("HTTP Error " ++ Py.str_of_int code ++ ": " ++ body))
  | OtherException _ _ =>
      logger_error ("Unexpected error: " ++ exn_str e) ;;;
      ret (error_result
             ("Unexpected Error: " ++ exn_type_name e ++ ": " ++ exn_str e))
  end.

Definition handle_code_assistant (config : Config) (http : remote) (arguments : dict)
  : M CallToolResult :=
  message <- lift (Op.strip (Op.get_default arguments "message" (PStr ""))) ;;
  let session_id :=
    Op.get_default arguments "session_id" (PStr (DEFAULT_SESSION_ID config)) in
  if String.eqb message ""
  then ret (error_result "Please provide a message/question for the code assistant.")
  else
    let payload := PDict [("session_id", session_id); ("message", PStr message)] in
    logger_info ("Calling RAG API: " ++ rag_chat_url config) ;;;
    try_except
      (response <- client_post http
                     {| url := rag_chat_url config; json := payload;
                        headers := json_headers;
                        timeout := REQUEST_TIMEOUT config |} ;;
       lift (raise_for_status response) ;;;
       data <- lift (response_json response) ;;
       code_assistant_map_response data)
      (code_assistant_except config).

(** The success mapping of [handle_universal_code_assistant]. *)
Definition universal_code_assistant_text (data : pyval) : M string :=
  let result_parts : list pyval := [] in
  result_parts <- append_field data "answer" (fun x => x) result_parts ;;
  result_parts <-
    append_field data "needs_clarification"
      (fun x => PStr (Py.nl ++ Py.nl ++ "**Clarification Needed:** " ++ Py.str x))
      result_parts ;;
  chunks_count <- lift (Op.get data "chunks_count" (PInt 0)) ;;
  language <- lift (Op.get data "language" (PStr "unknown")) ;;
  positive <- lift (Op.gt_zero chunks_count) ;;
  let result_parts :=
    if positive
    then (result_parts ++
          [PStr (Py.nl ++ Py.nl ++ "---" ++ Py.nl ++ "*Context: " ++ Py.str chunks_count
                 ++ " code chunks analyzed (" ++ Py.str language ++ " codebase)*")])%list
    else result_parts in
  final_response result_parts "No response from universal code assistant.".

Definition universal_code_assistant_map_response (data : pyval) : M CallToolResult :=
  ok <- lift (Op.get data "ok" PNone) ;;
  logger_info ("Universal RAG API response received, ok=" ++ Py.str ok) ;;;
  ok <- lift (Op.get data "ok" (PBool false)) ;;
  if negb (Py.truthy ok)
  then
    error_msg <- error_or_message data "Unknown error from Universal RAG API" ;;
    ret (error_result ("Universal RAG API Error: " ++ Py.str error_msg))
  else
    final_response <- universal_code_assistant_text data ;;
    ret (text_result final_response).

(** The [except] clauses of [handle_universal_code_assistant]. *)
Definition universal_code_assistant_except (config : Config) (e : exn)
  : M CallToolResult :=
  match e with
  | ConnectError _ =>
      logger_error ("Connection error to " ++ universal_rag_url config) ;;;
      ret (error_result
             ("Connection Error: Cannot reach Universal RAG API at "
              ++ universal_rag_url config ++ Py.nl ++ Py.nl
              ++ "Please ensure your Python RAG server is running:" ++ Py.nl
              ++ "uvicorn main:app --reload --port 8900"))
  | TimeoutException _ _ =>
      ret (error_result
             ("Request Timeout: The Universal RAG API did not respond within "
              ++ float_repr (REQUEST_TIMEOUT config) ++ " seconds."))
  | HTTPStatusError _ code body =>
      ret (error_result ("HTTP Error " ++ Py.str_of_int code ++ ": " ++ body))
  | OtherException _ _ =>
      logger_error ("Unexpected error: " ++ exn_str e) ;;;
      ret (error_result
             ("Unexpected Error: " ++ exn_type_name e ++ ": " ++ exn_str e))
  end.

Definition handle_universal_code_assistant (config : Config) (http : remote)
    (arguments : dict) : M CallToolResult :=
  message <- lift (Op.strip (Op.get_default arguments "message" (PStr ""))) ;;
  let session_id :=
    Op.get_default arguments "session_id" (PStr (DEFAULT_SESSION_ID config)) in
  if String.eqb message ""
  then ret (error_result
              "Please provide a message/question for the universal code assistant.")
  else
    let payload := PDict [("session_id", session_id); ("message", PStr message)] in
    logger_info ("Calling Universal RAG API: " ++ universal_rag_url config) ;;;
    try_except
      (response <- client_post http
                     {| url := universal_rag_url config; json := payload;
                        headers := json_headers;
                        timeout := REQUEST_TIMEOUT config |} ;;
       lift (raise_for_status response) ;;;
       data <- lift (response_json response) ;;
       universal_code_assistant_map_response data)
      (universal_code_assistant_except config).

(* ------------------------------------------------------------------ *)
(** ** mcp_server.py: the dispatch router *)

Definition handler := dict -> M CallToolResult.

(** [handlers[key] = h] on a mapping kept in insertion order. *)
Fixpoint handlers_set (handlers : list (string * handler)) (key : string) (h : handler)
  : list (string * handler) :=
  match handlers with
  | [] => [(key, h)]
  | (k, h') :: rest =>
      if String.eqb k key then (k, h) :: rest else (k, h') :: handlers_set rest key h
  end.

Fixpoint handlers_get (handlers : list (string * handler)) (key : string)
  : option handler :=
  match handlers with
  | [] => None
  | (k, h) :: rest => if String.eqb k key then Some h else handlers_get rest key
  end.

Definition handlers_keys (handlers : list (string * handler)) : list string :=
  map fst handlers.

(** The mapping [call_tool] builds, for given handler functions. *)
Definition build_handlers (config : Config) (code universal : handler)
  : list (string * handler) :=
  let handlers := [] in
  let handlers :=
    if ENABLE_DOTNET_RAG config
    then handlers_set handlers "code_assistant" code else handlers in
  let handlers :=
    if ENABLE_UNIVERSAL_RAG config
    then handlers_set handlers "universal_code_assistant" universal else handlers in
  handlers.

(** [call_tool] with the two handler functions as parameters. *)
Definition call_tool_with (config : Config) (code universal : handler)
    (name : string) (arguments : dict) : M CallToolResult :=
  logger_info ("Tool called: " ++ name) ;;;
  let handlers := build_handlers config code universal in
  match handlers_get handlers name with
  | None =>
      ret (error_result
             ("Unknown tool: '" ++ name ++ "'. Available tools: "
              ++ Py.join ", " (handlers_keys handlers)))
  | Some handler =>
      try_except (handler arguments)
        (fun e =>
           logger_error ("Error executing tool '" ++ name ++ "': " ++ exn_str e) ;;;
           ret (error_result ("Error executing tool '" ++ name ++ "': " ++ exn_str e)))
  end.

Definition call_tool (config : Config) (http : remote) (name : string) (arguments : dict)
  : M CallToolResult :=
  call_tool_with config
    (handle_code_assistant config http)
    (handle_universal_code_assistant config http)
    name arguments.

(* ------------------------------------------------------------------ *)
(** ** config.py: loading the settings from the environment *)

Module Str.

(** [str.lower] on a code point below 256: the ASCII capitals and the
    Latin-1 capitals (all of U+00C0..U+00DE but the multiplication sign) move
    up by 32. *)
Definition lower_char (c : ascii) : ascii :=
  let n := nat_of_ascii c in
  if (((65 <=? n) && (n <=? 90))
      || ((192 <=? n) && (n <=? 222) && negb (n =? 215)))%nat
  then ascii_of_nat (n + 32)
  else c.

Fixpoint lower (s : string) : string :=
  match s with
  | "" => ""
  | String c rest => String (lower_char c) (lower rest)
  end.

End Str.

Module Os.

(** The process environment once [load_dotenv()] has run. *)
Definition environ := string -> option string.

(** [os.getenv(key, default)] *)
Definition getenv (env : environ) (key default : string) : string :=
  match env key with
  | Some value => value
  | None => default
  end.

End Os.

(** [os.getenv(key, "true").lower() == "true"] *)
Definition env_flag (env : Os.environ) (key : string) : bool :=
  String.eqb (Str.lower (Os.getenv env key "true")) "true".

(** The endpoint settings of [Config] that no handler uses yet. *)
Record FutureEndpoints := {
  SQL_AGENT_ENDPOINT : string;
  REACT_AGENT_ENDPOINT : string;
  JAVA_AGENT_ENDPOINT : string
}.

Definition sql_agent_url (config : Config) (future : FutureEndpoints) : string :=
  RAG_API_BASE_URL config ++ SQL_AGENT_ENDPOINT future.

Definition react_agent_url (config : Config) (future : FutureEndpoints) : string :=
  RAG_API_BASE_URL config ++ REACT_AGENT_ENDPOINT future.

Definition java_agent_url (config : Config) (future : FutureEndpoints) : string :=
  RAG_API_BASE_URL config ++ JAVA_AGENT_ENDPOINT future.

Section LoadConfig.

(** Python's [float] on a string: the parsed number, or [ValueError]. *)
Variable float : string -> outcome pyfloat.

(** The body of [class Config], evaluated once at import: every setting is
    read from the environment with its default, and only the conversion of
    REQUEST_TIMEOUT can raise. *)
Definition load_config (env : Os.environ) : outcome (Config * FutureEndpoints) :=
  let base_url := Os.getenv env "RAG_API_BASE_URL" "http://localhost:8900" in
  let chat_endpoint := Os.getenv env "RAG_CHAT_ENDPOINT" "/api/chat/rag" in
  let universal_endpoint :=
    Os.getenv env "UNIVERSAL_RAG_ENDPOINT" "/api/chat/universal" in
  let default_session_id :=
    Os.getenv env "DEFAULT_SESSION_ID" "claude-desktop-session" in
  match float (Os.getenv env "REQUEST_TIMEOUT" "120") with
  | Raise e => Raise e
  | Ok request_timeout =>
      let enable_dotnet := env_flag env "ENABLE_DOTNET_RAG" in
      let enable_universal := env_flag env "ENABLE_UNIVERSAL_RAG" in
      Ok ({| RAG_API_BASE_URL := base_url;
             RAG_CHAT_ENDPOINT := chat_endpoint;
             UNIVERSAL_RAG_ENDPOINT := universal_endpoint;
             DEFAULT_SESSION_ID := default_session_id;
             REQUEST_TIMEOUT := request_timeout;
             ENABLE_DOTNET_RAG := enable_dotnet;
             ENABLE_UNIVERSAL_RAG := enable_universal |},
          {| SQL_AGENT_ENDPOINT := Os.getenv env "SQL_AGENT_ENDPOINT" "/api/sql/agent";
             REACT_AGENT_ENDPOINT :=
               Os.getenv env "REACT_AGENT_ENDPOINT" "/api/react/agent";
             JAVA_AGENT_ENDPOINT :=
               Os.getenv env "JAVA_AGENT_ENDPOINT" "/api/java/agent" |})
  end.

End LoadConfig.

(* ------------------------------------------------------------------ *)
(** ** Definitions used to state the properties *)

(** The descriptors whose flag is set, in declaration order. *)
Definition enabled_tools (config : Config) : list Tool :=
  ((if ENABLE_DOTNET_RAG config then [code_assistant_tool config] else [])
   ++ (if ENABLE_UNIVERSAL_RAG config then [universal_code_assistant_tool config] else []))%list.

(** The configuration with the two enable flags replaced. *)
Definition set_flags (config : Config) (dotnet universal : bool) : Config := {|
  RAG_API_BASE_URL := RAG_API_BASE_URL config;
  RAG_CHAT_ENDPOINT := RAG_CHAT_ENDPOINT config;
  UNIVERSAL_RAG_ENDPOINT := UNIVERSAL_RAG_ENDPOINT config;
  DEFAULT_SESSION_ID := DEFAULT_SESSION_ID config;
  REQUEST_TIMEOUT := REQUEST_TIMEOUT config;
  ENABLE_DOTNET_RAG := dotnet;
  ENABLE_UNIVERSAL_RAG := universal
|}.

(** Every character of [s] is whitespace. *)
Fixpoint all_space (s : string) : bool :=
  match s with
  | "" => true
  | String c s' => Py.is_space c && all_space s'
  end.

(** The exception [v.strip()] raises on a value that is not a string. *)
Definition no_strip (v : pyval) : exn :=
  OtherException "AttributeError"
    ("'" ++ Py.type_name v ++ "' object has no attribute 'strip'").

(** A network on which every connection attempt fails. *)
Definition refusing : remote :=
  fun _ => Raise (ConnectError "All connection attempts failed").

(** The HTTP requests among the events of a run, in order. *)
Definition posts (t : list event) : list Request :=
  flat_map (fun ev => match ev with HttpPost r => [r] | Log _ _ => [] end) t.

(** The messages logged at level ERROR during a run, in order. *)
Definition error_logs (t : list event) : list string :=
  flat_map (fun ev => match ev with Log ERROR msg => [msg] | _ => [] end) t.

(** The request a handler sends for a validated (trimmed) message. *)
Definition chat_request (config : Config) (endpoint : string) (arguments : dict)
    (message : string) : Request :=
  {| url := endpoint;
     json := PDict [("session_id",
                     Op.get_default arguments "session_id"
                       (PStr (DEFAULT_SESSION_ID config)));
                    ("message", PStr message)];
     headers := json_headers;
     timeout := REQUEST_TIMEOUT config |}.

(** What the first three steps of a handler's [try] block yield for a reply
    of the network: the parsed body, or the exception of the failing step. *)
Definition received (reply : outcome Response) : outcome pyval :=
  match reply with
  | Raise e => Raise e
  | Ok response =>
      match raise_for_status response with
      | Raise e => Raise e
      | Ok _ => response_json response
      end
  end.

(** A reply with status 200 whose body parses to [data]; the handlers do not
    read the raw body of such a reply. *)
Definition replying (data : pyval) : remote :=
  fun _ => Ok {| status_code := 200; response_text := "";
                 response_json := Ok data; status_error := "" |}.

(** A network on which every request times out while reading. *)
Definition timing_out : remote :=
  fun _ => Raise (TimeoutException "ReadTimeout" "").

(** A reply with the given status and raw body, which is not JSON. *)
Definition answering (status : Z) (body : string) : remote :=
  fun _ => Ok {| status_code := status; response_text := body;
                 response_json :=
                   Raise (OtherException "JSONDecodeError"
                            "Expecting value: line 1 column 1 (char 0)");
                 status_error := "" |}.

(** A computation without events. *)
Definition silent {A} (m : M A) : Prop := events m = [].

(** A computation that sends nothing. *)
Definition offline {A} (m : M A) : Prop := posts (events m) = [].

(** The payload of the round-trip property as the specification words it:
    the two arguments as supplied. *)
Definition payload_as_supplied (session_id message : string) : pyval :=
  PDict [("session_id", PStr session_id); ("message", PStr message)].

(** [needle in haystack] on strings. *)
Fixpoint contains (needle haystack : string) : bool :=
  String.prefix needle haystack
  || match haystack with
     | "" => false
     | String _ rest => contains needle rest
     end.

(** The text of the result a computation returns, if it returns one. *)
Definition returned_text (m : M CallToolResult) : option string :=
  match result m with
  | Ok r => Some (result_text r)
  | Raise _ => None
  end.

(** A field counts when [data.get(key)] is truthy: absent, [null], zero and
    empty values do not. *)
Definition nonempty (d : dict) (key : string) : bool :=
  Py.truthy (Op.get_default d key PNone).

(** The first of [error], [message] that is non-empty, else the fallback. *)
Definition first_nonempty (d : dict) (fallback : string) : pyval :=
  if nonempty d "error" then Op.get_default d "error" PNone
  else if nonempty d "message" then Op.get_default d "message" PNone
  else PStr fallback.

(** The test of the error mapping as the specification words it: the [ok]
    field is [false] or absent. *)
Definition ok_false_or_absent (d : dict) : bool :=
  match Op.dict_get d "ok" with
  | None => true
  | Some (PBool false) => true
  | Some _ => false
  end.

(** The message of the error mapping as the specification words it: the
    [error] field if present, else the [message] field, else the fallback. *)
Definition error_if_present (d : dict) (fallback : string) : string :=
  match Op.dict_get d "error" with
  | Some v => Py.str v
  | None =>
      match Op.dict_get d "message" with
      | Some v => Py.str v
      | None => fallback
      end
  end.

(** The success mapping of each handler, under the handler's own [except]
    clauses. *)
Definition code_assistant_success (config : Config) (d : dict) : outcome CallToolResult :=
  result (try_except
            (final_response <- code_assistant_text (PDict d) ;;
             ret (text_result final_response))
            (code_assistant_except config)).

Definition universal_code_assistant_success (config : Config) (d : dict)
  : outcome CallToolResult :=
  result (try_except
            (final_response <- universal_code_assistant_text (PDict d) ;;
             ret (text_result final_response))
            (universal_code_assistant_except config)).

(** [str] of a field, [None] standing for an absent one. *)
Definition field (d : dict) (key : string) : string :=
  Py.str (Op.get_default d key PNone).

(** A part of the response text, when it is included. *)
Definition part (included : bool) (text : string) : list string :=
  if included then [text] else [].

(** [chunks_count > 0], for a count that is a number. *)
Definition chunks_positive (d : dict) : bool :=
  match Op.gt_zero (Op.get_default d "chunks_count" (PInt 0)) with
  | Ok b => b
  | Raise _ => false
  end.

(** The parts of a [code_assistant] response, in their fixed order. *)
Definition code_assistant_parts (d : dict) : list string :=
  (part (nonempty d "answer") (field d "answer")
   ++ part (nonempty d "sql")
        (Py.nl ++ Py.nl ++ "### Generated SQL" ++ Py.nl ++ "```sql" ++ Py.nl
         ++ field d "sql" ++ Py.nl ++ "```")
   ++ part (nonempty d "markdown") (Py.nl ++ Py.nl ++ field d "markdown")
   ++ part (nonempty d "needs_clarification")
        (Py.nl ++ Py.nl ++ "**Clarification Needed:** " ++ field d "needs_clarification")
   ++ part (chunks_positive d)
        (Py.nl ++ Py.nl ++ "---" ++ Py.nl ++ "*Context: "
         ++ Py.str (Op.get_default d "chunks_count" (PInt 0))
         ++ " code chunks analyzed from your codebase*"))%list.

(** The parts of a [universal_code_assistant] response, in their fixed order. *)
Definition universal_code_assistant_parts (d : dict) : list string :=
  (part (nonempty d "answer") (field d "answer")
   ++ part (nonempty d "needs_clarification")
        (Py.nl ++ Py.nl ++ "**Clarification Needed:** " ++ field d "needs_clarification")
   ++ part (chunks_positive d)
        (Py.nl ++ Py.nl ++ "---" ++ Py.nl ++ "*Context: "
         ++ Py.str (Op.get_default d "chunks_count" (PInt 0))
         ++ " code chunks analyzed ("
         ++ Py.str (Op.get_default d "language" (PStr "unknown")) ++ " codebase)*"))%list.

(** The response text: the parts joined by a newline, or the fallback when
    there is none. *)
Definition joined_or (parts : list string) (fallback : string) : string :=
  match parts with
  | [] => fallback
  | _ => Py.join Py.nl parts
  end.

(** The [answer] field is a string, or does not count. *)
Definition answer_is_text (d : dict) : bool :=
  match Op.get_default d "answer" PNone with
  | PStr _ => true
  | v => negb (Py.truthy v)
  end.

(** The [chunks_count] field is a number (or absent). *)
Definition chunks_count_is_number (d : dict) : bool :=
  match Op.get_default d "chunks_count" (PInt 0) with
  | PBool _ | PInt _ | PFloat _ => true
  | _ => false
  end.

(* ------------------------------------------------------------------ *)
(** ** Further definitions used to state properties *)

Definition is_string (v : pyval) : bool :=
  match v with PStr _ => true | _ => false end.

(** What a handler does after its request: the [except] clause of the
    failing step, or the mapping of the parsed body under the same clauses. *)
Definition code_assistant_after (config : Config) (o : outcome pyval)
  : M CallToolResult :=
  match o with
  | Raise e => code_assistant_except config e
  | Ok data => try_except (code_assistant_map_response data)
                 (code_assistant_except config)
  end.

Definition universal_code_assistant_after (config : Config) (o : outcome pyval)
  : M CallToolResult :=
  match o with
  | Raise e => universal_code_assistant_except config e
  | Ok data => try_except (universal_code_assistant_map_response data)
                 (universal_code_assistant_except config)
  end.

(** A result made of one text block. *)
Definition one_text_block (t : string) (flag : bool) : CallToolResult :=
  {| content := [ {| type := "text"; text := t |} ]; isError := flag |}.

Definition is_dict (v : pyval) : bool :=
  match v with PDict _ => true | _ => false end.

(** The [except] clause that catches an exception. *)
Inductive exn_clause := OnConnect | OnTimeout | OnStatus | OnOther.

Definition clause_of (e : exn) : exn_clause :=
  match e with
  | ConnectError _ => OnConnect
  | TimeoutException _ _ => OnTimeout
  | HTTPStatusError _ _ _ => OnStatus
  | OtherException _ _ => OnOther
  end.

(** The first and the last character of a string. *)
Definition first_char (s : string) : option ascii :=
  match s with
  | "" => None
  | String c _ => Some c
  end.

Fixpoint last_char (s : string) : option ascii :=
  match s with
  | "" => None
  | String c "" => Some c
  | String _ rest => last_char rest
  end.

(** The sixteen spellings of "true", letter case apart. *)
Definition true_spellings : list string :=
  ["true"; "truE"; "trUe"; "trUE"; "tRue"; "tRuE"; "tRUe"; "tRUE";
   "True"; "TruE"; "TrUe"; "TrUE"; "TRue"; "TRuE"; "TRUe"; "TRUE"].

(** An environment given as a list of bindings. *)
Definition environ_of (bindings : list (string * string)) : Os.environ :=
  fun key =>
    (fix find (l : list (string * string)) : option string :=
       match l with
       | [] => None
       | (k, v) :: rest => if String.eqb k key then Some v else find rest
       end) bindings.

(** A stand-in for [float] that knows the default timeout only. *)
Definition float_of_default (s : string) : outcome pyfloat :=
  if String.eqb s "120"
  then Ok {| float_repr := "120.0"; float_sign_of := FPos |}
  else Raise (OtherException "ValueError"
                ("could not convert string to float: " ++ Py.repr_str s)).

(** The body of the [try] block of each handler, from the call of
    [client.post] to the end of the response mapping. *)
Definition code_assistant_try (http : remote) (request : Request) : M CallToolResult :=
  response <- client_post http request ;;
  lift (raise_for_status response) ;;;
  data <- lift (response_json response) ;;
  code_assistant_map_response data.

Definition universal_code_assistant_try (http : remote) (request : Request)
  : M CallToolResult :=
  response <- client_post http request ;;
  lift (raise_for_status response) ;;;
  data <- lift (response_json response) ;;
  universal_code_assistant_map_response data.

(* ------------------------------------------------------------------ *)
(** * Properties *)

(** ** Python values *)

Example repr_demo :
  Py.str (PDict [("a", PList [PInt (-3)%Z; PStr "it's"; PBool true; PNone])])
  = "{'a': [-3, " ++ String Py.dquote ("it's" ++ String Py.dquote ", True, None]}").
Proof. reflexivity. Qed.

Example strip_demo : Py.strip ("  a b " ++ Py.nl) = "a b".
Proof. reflexivity. Qed.

(** ** The effect monad *)

Lemma bind_ok {A B} (m : M A) (k : A -> M B) t a :
  m = (t, Ok a) -> bind m k = ((t ++ events (k a))%list, result (k a)).
Proof. intros ->. reflexivity. Qed.

Lemma bind_raise {A B} (m : M A) (k : A -> M B) t e :
  m = (t, Raise e) -> bind m k = (t, Raise e).
Proof. intros ->. reflexivity. Qed.

Lemma try_except_ok {A} (body : M A) h t a :
  body = (t, Ok a) -> try_except body h = (t, Ok a).
Proof. intros ->. reflexivity. Qed.


(** ** The tool catalog *)

Lemma list_tools_filtered config : list_tools config = enabled_tools config.
Proof.
  unfold list_tools, enabled_tools, tools, filter_step; simpl.
  destruct (ENABLE_DOTNET_RAG config), (ENABLE_UNIVERSAL_RAG config); reflexivity.
Qed.

Lemma list_tools_names config :
  map name (list_tools config)
  = ((if ENABLE_DOTNET_RAG config then ["code_assistant"] else [])
     ++ (if ENABLE_UNIVERSAL_RAG config then ["universal_code_assistant"] else []))%list.
Proof.
  rewrite list_tools_filtered. unfold enabled_tools.
  destruct (ENABLE_DOTNET_RAG config), (ENABLE_UNIVERSAL_RAG config); reflexivity.
Qed.

(** C2. For each of the four values of the two enable flags, [list_tools]
    returns exactly the descriptors whose flag is true, [code_assistant]
    before [universal_code_assistant], and the empty list when neither flag
    is set. *)
Theorem list_tools_enabled (config : Config) :
  list_tools config = enabled_tools config
  /\ map name (list_tools config)
     = ((if ENABLE_DOTNET_RAG config then ["code_assistant"] else [])
        ++ (if ENABLE_UNIVERSAL_RAG config then ["universal_code_assistant"] else []))%list
  /\ list_tools (set_flags config false false) = []
  /\ list_tools (set_flags config true false) = [code_assistant_tool config]
  /\ list_tools (set_flags config false true) = [universal_code_assistant_tool config]
  /\ list_tools (set_flags config true true)
     = [code_assistant_tool config; universal_code_assistant_tool config].
Proof.
  split; [apply list_tools_filtered|].
  split; [apply list_tools_names|].
  repeat split; rewrite list_tools_filtered; reflexivity.
Qed.

(** ** The dispatch router *)

(** Listing and dispatch agree: the keys of the handler mapping are the
    names of the listed tools, in the same order. *)
Lemma handlers_keys_list_tools config code universal :
  handlers_keys (build_handlers config code universal) = map name (list_tools config).
Proof.
  rewrite list_tools_names.
  unfold build_handlers, handlers_keys.
  destruct (ENABLE_DOTNET_RAG config), (ENABLE_UNIVERSAL_RAG config); reflexivity.
Qed.

Lemma build_handlers_enabled config code universal :
  build_handlers config code universal
  = ((if ENABLE_DOTNET_RAG config then [("code_assistant", code)] else [])
     ++ (if ENABLE_UNIVERSAL_RAG config
         then [("universal_code_assistant", universal)] else []))%list.
Proof.
  unfold build_handlers.
  destruct (ENABLE_DOTNET_RAG config), (ENABLE_UNIVERSAL_RAG config); reflexivity.
Qed.

Ltac case_eqb :=
  repeat match goal with
         | |- context [String.eqb ?a ?b] => destruct (String.eqb_spec a b)
         | H : context [String.eqb ?a ?b] |- _ => destruct (String.eqb_spec a b)
         end.


(** The router on a name without handler, whatever the handler functions. *)
Lemma call_tool_with_unknown config code universal tool arguments :
  handlers_get (build_handlers config code universal) tool = None ->
  call_tool_with config code universal tool arguments
  = ([Log INFO ("Tool called: " ++ tool)],
     Ok (error_result
           ("Unknown tool: '" ++ tool ++ "'. Available tools: "
            ++ Py.join ", " (map name (list_tools config))))).
Proof.
  intros H. unfold call_tool_with. rewrite H, handlers_keys_list_tools. reflexivity.
Qed.

(** A declared tool whose flag is off is unknown to the router. *)
Lemma disabled_code_assistant_unknown config http arguments :
  ENABLE_DOTNET_RAG config = false ->
  call_tool config http "code_assistant" arguments
  = ([Log INFO "Tool called: code_assistant"],
     Ok (error_result
           ("Unknown tool: 'code_assistant'. Available tools: "
            ++ (if ENABLE_UNIVERSAL_RAG config then "universal_code_assistant" else "")))).
Proof.
  intros E. unfold call_tool. rewrite call_tool_with_unknown.
  - rewrite list_tools_names. rewrite E.
    destruct (ENABLE_UNIVERSAL_RAG config); reflexivity.
  - rewrite build_handlers_enabled, E.
    destruct (ENABLE_UNIVERSAL_RAG config); reflexivity.
Qed.

Lemma disabled_universal_code_assistant_unknown config http arguments :
  ENABLE_UNIVERSAL_RAG config = false ->
  call_tool config http "universal_code_assistant" arguments
  = ([Log INFO "Tool called: universal_code_assistant"],
     Ok (error_result
           ("Unknown tool: 'universal_code_assistant'. Available tools: "
            ++ (if ENABLE_DOTNET_RAG config then "code_assistant" else "")))).
Proof.
  intros E. unfold call_tool. rewrite call_tool_with_unknown.
  - rewrite list_tools_names. rewrite E.
    destruct (ENABLE_DOTNET_RAG config); reflexivity.
  - rewrite build_handlers_enabled, E.
    destruct (ENABLE_DOTNET_RAG config); reflexivity.
Qed.


(** ** Input validation *)

Lemma lstrip_empty_iff s : Py.lstrip s = "" <-> all_space s = true.
Proof.
  induction s as [|c s IH]; simpl.
  - tauto.
  - destruct (Py.is_space c); simpl.
    + exact IH.
    + split; discriminate.
Qed.

Lemma lstrip_head s c r : Py.lstrip s = String c r -> Py.is_space c = false.
Proof.
  induction s as [|c' s IH]; simpl; [discriminate|].
  destruct (Py.is_space c') eqn:E; [exact IH|].
  intros H. injection H as -> _. exact E.
Qed.

Lemma rstrip_head c r : Py.is_space c = false -> Py.rstrip (String c r) <> "".
Proof. intros E. simpl. rewrite E. discriminate. Qed.

(** Trimming leaves nothing exactly when the string is empty or made of
    whitespace only. *)
Lemma strip_empty_iff s : Py.strip s = "" <-> all_space s = true.
Proof.
  unfold Py.strip. rewrite <- lstrip_empty_iff.
  destruct (Py.lstrip s) as [|c r] eqn:E.
  - simpl. tauto.
  - split; [|discriminate].
    intros H. exfalso. eapply rstrip_head; [|exact H].
    eapply lstrip_head; exact E.
Qed.

(** C5. When the [message] argument is absent or is a string that trimming
    empties (the empty string, whitespace only), each handler returns its
    guidance text flagged as an error, and performs no event at all: in
    particular no HTTP call, whatever the remote service would answer. *)
Theorem empty_message_rejected config http arguments s :
  Op.get_default arguments "message" (PStr "") = PStr s ->
  Py.strip s = "" ->
  handle_code_assistant config http arguments
  = ([], Ok (error_result "Please provide a message/question for the code assistant."))
  /\ handle_universal_code_assistant config http arguments
     = ([], Ok (error_result
                  "Please provide a message/question for the universal code assistant.")).
Proof.
  intros Hm Hs.
  unfold handle_code_assistant, handle_universal_code_assistant.
  rewrite Hm. unfold Op.strip, lift, bind. rewrite Hs. split; reflexivity.
Qed.

Lemma empty_message_rejected_witness :
  (handle_code_assistant default_config refusing
     [("session_id", PStr "s"); ("message", PStr "   ")]
   = ([], Ok (error_result "Please provide a message/question for the code assistant.")))
  /\ (handle_universal_code_assistant default_config refusing []
      = ([], Ok (error_result
                   "Please provide a message/question for the universal code assistant."))).
Proof.
  split.
  - apply (empty_message_rejected default_config _ _ "   "); reflexivity.
  - apply (empty_message_rejected default_config _ [] ""); reflexivity.
Defined.




(** The router passes a result of the handler through. *)
Lemma call_tool_with_ok config code universal tool arguments h t r :
  handlers_get (build_handlers config code universal) tool = Some h ->
  h arguments = (t, Ok r) ->
  call_tool_with config code universal tool arguments
  = (Log INFO ("Tool called: " ++ tool) :: t, Ok r).
Proof.
  intros Hh He. unfold call_tool_with. rewrite Hh.
  rewrite (try_except_ok _ _ _ _ He). reflexivity.
Qed.




(** ** The handlers, step by step *)

Lemma posts_app t1 t2 : posts (t1 ++ t2) = (posts t1 ++ posts t2)%list.
Proof. apply flat_map_app. Qed.

Lemma error_logs_app t1 t2 : error_logs (t1 ++ t2) = (error_logs t1 ++ error_logs t2)%list.
Proof. apply flat_map_app. Qed.

Lemma silent_ret {A} (a : A) : silent (ret a).
Proof. reflexivity. Qed.

Lemma silent_lift {A} (o : outcome A) : silent (lift o).
Proof. reflexivity. Qed.

Lemma silent_bind {A B} (m : M A) (k : A -> M B) :
  silent m -> (forall a, silent (k a)) -> silent (bind m k).
Proof.
  unfold silent. destruct m as [t [a|e]]; simpl; intros -> H.
  - apply H.
  - reflexivity.
Qed.

Lemma silent_if {A} (b : bool) (m1 m2 : M A) :
  silent m1 -> silent m2 -> silent (if b then m1 else m2).
Proof. destruct b; trivial. Qed.

Lemma silent_final_response parts fallback : silent (final_response parts fallback).
Proof. destruct parts; reflexivity. Qed.

Create HintDb silent.
#[local] Hint Resolve silent_ret silent_lift silent_bind silent_if
  silent_final_response : silent.

Lemma silent_append_field data key render parts :
  silent (append_field data key render parts).
Proof. unfold append_field. auto 10 with silent. Qed.

Lemma silent_error_or_message data fallback : silent (error_or_message data fallback).
Proof. unfold error_or_message. auto 10 with silent. Qed.

#[local] Hint Resolve silent_append_field silent_error_or_message : silent.

Lemma silent_code_assistant_text data : silent (code_assistant_text data).
Proof.
  unfold code_assistant_text.
  repeat (apply silent_bind; [auto with silent | intros ?]).
  apply silent_final_response.
Qed.

Lemma silent_universal_code_assistant_text data :
  silent (universal_code_assistant_text data).
Proof.
  unfold universal_code_assistant_text.
  repeat (apply silent_bind; [auto with silent | intros ?]).
  apply silent_final_response.
Qed.

Lemma silent_offline {A} (m : M A) : silent m -> offline m.
Proof. unfold silent, offline. intros ->. reflexivity. Qed.

Lemma offline_bind {A B} (m : M A) (k : A -> M B) :
  offline m -> (forall a, offline (k a)) -> offline (bind m k).
Proof.
  unfold offline. destruct m as [t [a|e]]; simpl; intros Hm H.
  - rewrite posts_app, Hm. apply H.
  - exact Hm.
Qed.

Lemma offline_try_except {A} (body : M A) h :
  offline body -> (forall e, offline (h e)) -> offline (try_except body h).
Proof.
  unfold offline. destruct body as [t [a|e]]; simpl; intros Hm H.
  - exact Hm.
  - rewrite posts_app, Hm. apply H.
Qed.

Lemma offline_code_assistant_map_response data :
  offline (code_assistant_map_response data).
Proof.
  unfold code_assistant_map_response.
  apply offline_bind; [apply silent_offline, silent_lift | intros ok].
  apply offline_bind; [reflexivity | intros _].
  apply silent_offline.
  apply silent_bind; [apply silent_lift | intros ok'].
  apply silent_if; apply silent_bind;
    auto using silent_error_or_message, silent_code_assistant_text, silent_ret.
Qed.

Lemma offline_universal_code_assistant_map_response data :
  offline (universal_code_assistant_map_response data).
Proof.
  unfold universal_code_assistant_map_response.
  apply offline_bind; [apply silent_offline, silent_lift | intros ok].
  apply offline_bind; [reflexivity | intros _].
  apply silent_offline.
  apply silent_bind; [apply silent_lift | intros ok'].
  apply silent_if; apply silent_bind;
    auto using silent_error_or_message, silent_universal_code_assistant_text, silent_ret.
Qed.

Lemma offline_code_assistant_except config e : offline (code_assistant_except config e).
Proof. destruct e; reflexivity. Qed.

Lemma offline_universal_code_assistant_except config e :
  offline (universal_code_assistant_except config e).
Proof. destruct e; reflexivity. Qed.

Ltac step_handler :=
  cbv beta iota delta [bind client_post lift logger_info fst snd].

(** [handle_code_assistant] on a message that passes validation: the log
    record, the single POST, then either the [except] clause of the failing
    step or the mapping of the parsed body under the same clauses. *)
Lemma handle_code_assistant_valid config http arguments s :
  Op.get_default arguments "message" (PStr "") = PStr s ->
  Py.strip s <> "" ->
  let request := chat_request config (rag_chat_url config) arguments (Py.strip s) in
  let after :=
    match received (http request) with
    | Raise e => code_assistant_except config e
    | Ok data => try_except (code_assistant_map_response data)
                   (code_assistant_except config)
    end in
  handle_code_assistant config http arguments
  = ((Log INFO ("Calling RAG API: " ++ rag_chat_url config) :: HttpPost request
      :: events after)%list, result after).
Proof.
  intros Hm Hs. unfold handle_code_assistant. rewrite Hm.
  unfold Op.strip, lift at 1, bind at 1. cbv beta iota.
  destruct (String.eqb_spec (Py.strip s) "") as [E|_]; [contradiction|].
  unfold chat_request, received. step_handler.
  destruct (http _) as [response|e]; [|reflexivity].
  destruct (raise_for_status response) as [[]|e]; [|reflexivity].
  step_handler.
  destruct (response_json response) as [data|e]; [|reflexivity].
  destruct (code_assistant_map_response data) as [t [r|e]]; reflexivity.
Qed.

Lemma handle_universal_code_assistant_valid config http arguments s :
  Op.get_default arguments "message" (PStr "") = PStr s ->
  Py.strip s <> "" ->
  let request := chat_request config (universal_rag_url config) arguments (Py.strip s) in
  let after :=
    match received (http request) with
    | Raise e => universal_code_assistant_except config e
    | Ok data => try_except (universal_code_assistant_map_response data)
                   (universal_code_assistant_except config)
    end in
  handle_universal_code_assistant config http arguments
  = ((Log INFO ("Calling Universal RAG API: " ++ universal_rag_url config)
      :: HttpPost request :: events after)%list, result after).
Proof.
  intros Hm Hs. unfold handle_universal_code_assistant. rewrite Hm.
  unfold Op.strip, lift at 1, bind at 1. cbv beta iota.
  destruct (String.eqb_spec (Py.strip s) "") as [E|_]; [contradiction|].
  unfold chat_request, received. step_handler.
  destruct (http _) as [response|e]; [|reflexivity].
  destruct (raise_for_status response) as [[]|e]; [|reflexivity].
  step_handler.
  destruct (response_json response) as [data|e]; [|reflexivity].
  destruct (universal_code_assistant_map_response data) as [t [r|e]]; reflexivity.
Qed.

(** ** The request sent *)

Lemma posts_after_code config o :
  posts (events (match o with
                 | Raise e => code_assistant_except config e
                 | Ok data => try_except (code_assistant_map_response data)
                                (code_assistant_except config)
                 end)) = [].
Proof.
  destruct o as [data|e].
  - apply offline_try_except.
    + apply offline_code_assistant_map_response.
    + apply offline_code_assistant_except.
  - apply offline_code_assistant_except.
Qed.

Lemma posts_after_universal config o :
  posts (events (match o with
                 | Raise e => universal_code_assistant_except config e
                 | Ok data => try_except (universal_code_assistant_map_response data)
                                (universal_code_assistant_except config)
                 end)) = [].
Proof.
  destruct o as [data|e].
  - apply offline_try_except.
    + apply offline_universal_code_assistant_map_response.
    + apply offline_universal_code_assistant_except.
  - apply offline_universal_code_assistant_except.
Qed.

(** C6, as stated, fails: a message with surrounding whitespace passes
    validation and is sent trimmed, not as supplied. *)
Lemma payload_as_supplied_fails :
  let arguments := [("session_id", PStr "s1"); ("message", PStr " hi ")] in
  Py.strip " hi " <> ""
  /\ map json (posts (events (handle_code_assistant default_config refusing arguments)))
     = [PDict [("session_id", PStr "s1"); ("message", PStr "hi")]]
  /\ map json (posts (events (handle_code_assistant default_config refusing arguments)))
     <> [payload_as_supplied "s1" " hi "]
  /\ map json (posts (events
                        (handle_universal_code_assistant default_config refusing arguments)))
     <> [payload_as_supplied "s1" " hi "].
Proof.
  repeat split; try reflexivity; vm_compute; intros H; discriminate H.
Qed.

(** C6, amended. For every [session_id] string and every [message] string
    that passes validation, each handler sends exactly one request, whatever
    the network answers: a POST to its own URL with the JSON content-type
    header and the configured timeout, whose payload has the two fields
    [session_id] and [message] and no other, where [session_id] is the
    argument as supplied and [message] is the argument with its surrounding
    whitespace removed. *)
Theorem payload_trimmed config http arguments session_id s :
  Op.dict_get arguments "session_id" = Some (PStr session_id) ->
  Op.dict_get arguments "message" = Some (PStr s) ->
  Py.strip s <> "" ->
  let payload :=
    PDict [("session_id", PStr session_id); ("message", PStr (Py.strip s))] in
  posts (events (handle_code_assistant config http arguments))
  = [ {| url := rag_chat_url config; json := payload;
         headers := [("Content-Type", "application/json")];
         timeout := REQUEST_TIMEOUT config |} ]
  /\ posts (events (handle_universal_code_assistant config http arguments))
     = [ {| url := universal_rag_url config; json := payload;
            headers := [("Content-Type", "application/json")];
            timeout := REQUEST_TIMEOUT config |} ].
Proof.
  intros Hid Hmsg Hs payload.
  assert (Hm : Op.get_default arguments "message" (PStr "") = PStr s)
    by (unfold Op.get_default; rewrite Hmsg; reflexivity).
  assert (Hreq : forall endpoint,
             chat_request config endpoint arguments (Py.strip s)
             = {| url := endpoint; json := payload;
                  headers := [("Content-Type", "application/json")];
                  timeout := REQUEST_TIMEOUT config |})
    by (intros endpoint; unfold chat_request, Op.get_default; rewrite Hid; reflexivity).
  split.
  - rewrite (handle_code_assistant_valid config http arguments s Hm Hs).
    unfold events at 1, fst.
    change (posts (?a :: HttpPost ?r :: ?t)) with (r :: posts t).
    rewrite posts_after_code, Hreq. reflexivity.
  - rewrite (handle_universal_code_assistant_valid config http arguments s Hm Hs).
    unfold events at 1, fst.
    change (posts (?a :: HttpPost ?r :: ?t)) with (r :: posts t).
    rewrite posts_after_universal, Hreq. reflexivity.
Qed.

Lemma payload_trimmed_witness :
  map json (posts (events
     (handle_universal_code_assistant default_config (replying (PDict []))
        [("message", PStr "  list the routes "); ("session_id", PStr "s1")])))
  = [PDict [("session_id", PStr "s1"); ("message", PStr "list the routes")]].
Proof.
  rewrite (proj2 (payload_trimmed default_config (replying (PDict []))
                    [("message", PStr "  list the routes "); ("session_id", PStr "s1")]
                    "s1" "  list the routes " eq_refl eq_refl
                    ltac:(vm_compute; intros H; discriminate H))).
  reflexivity.
Defined.
(** ** Failure paths *)

(** What [handle_code_assistant] does when a step of its [try] block raises:
    one ERROR record after the request, on each of the four clauses. *)
Lemma code_assistant_failure_logged config http arguments s e :
  Op.get_default arguments "message" (PStr "") = PStr s ->
  Py.strip s <> "" ->
  received (http (chat_request config (rag_chat_url config) arguments (Py.strip s)))
  = Raise e ->
  error_logs (events (handle_code_assistant config http arguments))
  = [match e with
     | ConnectError _ => "Connection error to " ++ rag_chat_url config
     | TimeoutException _ _ =>
         "Timeout after " ++ float_repr (REQUEST_TIMEOUT config) ++ "s"
     | HTTPStatusError _ code _ => "HTTP error: " ++ Py.str_of_int code
     | OtherException _ msg => "Unexpected error: " ++ msg
     end].
Proof.
  intros Hm Hs He.
  rewrite (handle_code_assistant_valid config http arguments s Hm Hs), He.
  destruct e; reflexivity.
Qed.

(** The same for [handle_universal_code_assistant]: the connection and the
    catch-all clauses log, the timeout and the status clauses do not. *)
Lemma universal_code_assistant_failure_logged config http arguments s e :
  Op.get_default arguments "message" (PStr "") = PStr s ->
  Py.strip s <> "" ->
  received (http (chat_request config (universal_rag_url config) arguments (Py.strip s)))
  = Raise e ->
  error_logs (events (handle_universal_code_assistant config http arguments))
  = match e with
    | ConnectError _ => ["Connection error to " ++ universal_rag_url config]
    | TimeoutException _ _ => []
    | HTTPStatusError _ _ _ => []
    | OtherException _ msg => ["Unexpected error: " ++ msg]
    end.
Proof.
  intros Hm Hs He.
  rewrite (handle_universal_code_assistant_valid config http arguments s Hm Hs), He.
  destruct e; reflexivity.
Qed.

(** C8. The run of [handle_universal_code_assistant] on a message "hi" whose
    request times out, and the one whose request is answered with status 500:
    the only log record is the announcement written before the request, and
    nothing records the failure, where [handle_code_assistant] on the same
    input writes an ERROR record. *)
Theorem universal_failures_not_logged :
  let arguments := [("message", PStr "hi")] in
  handle_universal_code_assistant default_config timing_out arguments
  = ([Log INFO "Calling Universal RAG API: http://localhost:8900/api/chat/universal";
      HttpPost (chat_request default_config "http://localhost:8900/api/chat/universal"
                  arguments "hi")],
     Ok (error_result
           "Request Timeout: The Universal RAG API did not respond within 120.0 seconds."))
  /\ handle_universal_code_assistant default_config
       (answering 500 "Internal Server Error") arguments
     = ([Log INFO "Calling Universal RAG API: http://localhost:8900/api/chat/universal";
         HttpPost (chat_request default_config "http://localhost:8900/api/chat/universal"
                     arguments "hi")],
        Ok (error_result "HTTP Error 500: Internal Server Error"))
  /\ error_logs (events (handle_code_assistant default_config timing_out arguments))
     = ["Timeout after 120.0s"]
  /\ error_logs (events (handle_code_assistant default_config
                           (answering 500 "Internal Server Error") arguments))
     = ["HTTP error: 500"].
Proof. repeat split; reflexivity. Qed.

(** On a timeout both handlers return an error result that names the
    configured timeout value. *)
Lemma timeout_text_names_value config http arguments s tyname msg :
  Op.get_default arguments "message" (PStr "") = PStr s ->
  Py.strip s <> "" ->
  (forall request, http request = Raise (TimeoutException tyname msg)) ->
  result (handle_code_assistant config http arguments)
  = Ok (error_result
          ("Request Timeout: The RAG API did not respond within "
           ++ float_repr (REQUEST_TIMEOUT config) ++ " seconds." ++ Py.nl ++ Py.nl
           ++ "Try simplifying your question or increasing REQUEST_TIMEOUT in .env"))
  /\ result (handle_universal_code_assistant config http arguments)
     = Ok (error_result
             ("Request Timeout: The Universal RAG API did not respond within "
              ++ float_repr (REQUEST_TIMEOUT config) ++ " seconds.")).
Proof.
  intros Hm Hs Ht. split.
  - rewrite (handle_code_assistant_valid config http arguments s Hm Hs), Ht. reflexivity.
  - rewrite (handle_universal_code_assistant_valid config http arguments s Hm Hs), Ht.
    reflexivity.
Qed.

(** C9. The run of [handle_universal_code_assistant] on a message "hi" whose
    request times out: the error text names the timeout value and stops there,
    without the advice to simplify the question or raise REQUEST_TIMEOUT
    that [handle_code_assistant] appends on the same input. *)
Theorem universal_timeout_text_has_no_advice :
  let arguments := [("message", PStr "hi")] in
  let universal := handle_universal_code_assistant default_config timing_out arguments in
  let code := handle_code_assistant default_config timing_out arguments in
  result universal
  = Ok (error_result
          "Request Timeout: The Universal RAG API did not respond within 120.0 seconds.")
  /\ result code
     = Ok (error_result
             ("Request Timeout: The RAG API did not respond within 120.0 seconds."
              ++ Py.nl ++ Py.nl
              ++ "Try simplifying your question or increasing REQUEST_TIMEOUT in .env"))
  /\ option_map (contains "120.0") (returned_text universal) = Some true
  /\ option_map (contains "simplify") (returned_text universal) = Some false
  /\ option_map (contains "REQUEST_TIMEOUT") (returned_text universal) = Some false
  /\ option_map (contains "120.0") (returned_text code) = Some true
  /\ option_map (contains "simplify") (returned_text code) = Some true
  /\ option_map (contains "REQUEST_TIMEOUT") (returned_text code) = Some true.
Proof. repeat split; reflexivity. Qed.
(** ** The error mapping *)

Lemma error_or_message_dict d fallback :
  error_or_message (PDict d) fallback = ([], Ok (first_nonempty d fallback)).
Proof.
  unfold error_or_message, first_nonempty, nonempty, Op.get.
  step_handler.
  destruct (Py.truthy (Op.get_default d "error" PNone)); [reflexivity|].
  destruct (Py.truthy (Op.get_default d "message" PNone)); reflexivity.
Qed.

Lemma code_assistant_map_response_dict config d :
  result (try_except (code_assistant_map_response (PDict d))
            (code_assistant_except config))
  = if Py.truthy (Op.get_default d "ok" (PBool false))
    then code_assistant_success config d
    else Ok (error_result
               ("RAG API Error: "
                ++ Py.str (first_nonempty d "Unknown error from RAG API"))).
Proof.
  unfold code_assistant_map_response, code_assistant_success, Op.get.
  step_handler.
  destruct (Py.truthy (Op.get_default d "ok" (PBool false))); cbv beta iota.
  - destruct (code_assistant_text (PDict d)) as [t [r|e]]; reflexivity.
  - rewrite error_or_message_dict. reflexivity.
Qed.

Lemma universal_code_assistant_map_response_dict config d :
  result (try_except (universal_code_assistant_map_response (PDict d))
            (universal_code_assistant_except config))
  = if Py.truthy (Op.get_default d "ok" (PBool false))
    then universal_code_assistant_success config d
    else Ok (error_result
               ("Universal RAG API Error: "
                ++ Py.str (first_nonempty d "Unknown error from Universal RAG API"))).
Proof.
  unfold universal_code_assistant_map_response, universal_code_assistant_success, Op.get.
  step_handler.
  destruct (Py.truthy (Op.get_default d "ok" (PBool false))); cbv beta iota.
  - destruct (universal_code_assistant_text (PDict d)) as [t [r|e]]; reflexivity.
  - rewrite error_or_message_dict. reflexivity.
Qed.

(** The success mapping never produces the text of the error mapping. *)
Lemma code_assistant_success_text config d msg :
  code_assistant_success config d <> Ok (error_result ("RAG API Error: " ++ msg)).
Proof.
  unfold code_assistant_success.
  destruct (code_assistant_text (PDict d)) as [t [r|e]]; [|destruct e];
    intros H; discriminate H.
Qed.

Lemma universal_code_assistant_success_text config d msg :
  universal_code_assistant_success config d
  <> Ok (error_result ("Universal RAG API Error: " ++ msg)).
Proof.
  unfold universal_code_assistant_success.
  destruct (universal_code_assistant_text (PDict d)) as [t [r|e]]; [|destruct e];
    intros H; discriminate H.
Qed.

(** C4, as stated, fails in both directions of its equivalence. On the body
    [{"ok": false, "error": "", "message": "boom"}] the [error] field is
    present and the reported message is "boom", not that field; on the body
    [{"ok": 0}] the [ok] field is present and is not [false], and the error
    mapping runs all the same. *)
Lemma error_mapping_as_stated_fails :
  let run d :=
    result (handle_code_assistant default_config (replying (PDict d))
              [("message", PStr "hi")]) in
  let stated d :=
    run d = Ok (error_result
                  ("RAG API Error: " ++ error_if_present d "Unknown error from RAG API")) in
  let d1 := [("ok", PBool false); ("error", PStr ""); ("message", PStr "boom")] in
  let d2 := [("ok", PInt 0)] in
  run d1 = Ok (error_result "RAG API Error: boom")
  /\ ~ (stated d1 <-> ok_false_or_absent d1 = true)
  /\ run d2 = Ok (error_result "RAG API Error: Unknown error from RAG API")
  /\ ~ (stated d2 <-> ok_false_or_absent d2 = true).
Proof.
  repeat split; try reflexivity.
  - intros [_ H]. specialize (H eq_refl). vm_compute in H. discriminate H.
  - intros [H _]. specialize (H eq_refl). vm_compute in H. discriminate H.
Qed.

(** C4, amended. For every remote response whose body is a JSON object, each
    handler returns the error-flagged text "<label> Error: <msg>" if and only
    if the body's [ok] field is absent or falsy ([false], [null], zero,
    empty), where <msg> is the [error] field if it is non-empty, else the
    [message] field if it is non-empty, else the handler's fallback string;
    otherwise the success mapping runs. *)
Theorem error_mapping config http arguments s d :
  Op.get_default arguments "message" (PStr "") = PStr s ->
  Py.strip s <> "" ->
  received (http (chat_request config (rag_chat_url config) arguments (Py.strip s)))
  = Ok (PDict d) ->
  received (http (chat_request config (universal_rag_url config) arguments (Py.strip s)))
  = Ok (PDict d) ->
  let ok := Py.truthy (Op.get_default d "ok" (PBool false)) in
  let code := result (handle_code_assistant config http arguments) in
  let universal := result (handle_universal_code_assistant config http arguments) in
  code = (if ok then code_assistant_success config d
          else Ok (error_result
                     ("RAG API Error: "
                      ++ Py.str (first_nonempty d "Unknown error from RAG API"))))
  /\ universal = (if ok then universal_code_assistant_success config d
                  else Ok (error_result
                             ("Universal RAG API Error: "
                              ++ Py.str (first_nonempty d
                                           "Unknown error from Universal RAG API"))))
  /\ ((exists msg, code = Ok (error_result ("RAG API Error: " ++ msg))) <-> ok = false)
  /\ ((exists msg, universal = Ok (error_result ("Universal RAG API Error: " ++ msg)))
      <-> ok = false).
Proof.
  intros Hm Hs Hc Hu ok code universal.
  assert (Ec : code = if ok then code_assistant_success config d
                      else Ok (error_result
                                 ("RAG API Error: "
                                  ++ Py.str (first_nonempty d "Unknown error from RAG API")))).
  { subst code. rewrite (handle_code_assistant_valid config http arguments s Hm Hs), Hc.
    apply code_assistant_map_response_dict. }
  assert (Eu : universal
               = if ok then universal_code_assistant_success config d
                 else Ok (error_result
                            ("Universal RAG API Error: "
                             ++ Py.str (first_nonempty d
                                          "Unknown error from Universal RAG API")))).
  { subst universal.
    rewrite (handle_universal_code_assistant_valid config http arguments s Hm Hs), Hu.
    apply universal_code_assistant_map_response_dict. }
  repeat split; trivial.
  - intros [msg H]. rewrite Ec in H. destruct ok; [|reflexivity].
    exfalso. exact (code_assistant_success_text _ _ _ H).
  - intros E. rewrite Ec, E. eexists. reflexivity.
  - intros [msg H]. rewrite Eu in H. destruct ok; [|reflexivity].
    exfalso. exact (universal_code_assistant_success_text _ _ _ H).
  - intros E. rewrite Eu, E. eexists. reflexivity.
Qed.

Lemma error_mapping_witness :
  result (handle_code_assistant default_config
            (replying (PDict [("ok", PBool false); ("error", PStr "boom")]))
            [("message", PStr "hi")])
  = Ok (error_result "RAG API Error: boom").
Proof.
  exact (proj1 (error_mapping default_config
                  (replying (PDict [("ok", PBool false); ("error", PStr "boom")]))
                  [("message", PStr "hi")] "hi"
                  [("ok", PBool false); ("error", PStr "boom")]
                  eq_refl ltac:(vm_compute; intros H; discriminate H) eq_refl eq_refl)).
Defined.
(** ** The success mapping *)

Lemma getitem_nonempty d key :
  nonempty d key = true ->
  Op.getitem (PDict d) key = Ok (Op.get_default d key PNone).
Proof.
  unfold nonempty, Op.get_default, Op.getitem.
  destruct (Op.dict_get d key); [reflexivity | discriminate].
Qed.

Lemma append_field_dict d key render parts :
  append_field (PDict d) key render parts
  = ([], Ok (if nonempty d key
             then (parts ++ [render (Op.get_default d key PNone)])%list
             else parts)).
Proof.
  unfold append_field, Op.get. step_handler.
  fold (nonempty d key). destruct (nonempty d key) eqn:E; [|reflexivity].
  rewrite (getitem_nonempty _ _ E). reflexivity.
Qed.

Lemma answer_text d :
  answer_is_text d = true ->
  nonempty d "answer" = true ->
  Op.get_default d "answer" PNone = PStr (field d "answer").
Proof.
  unfold answer_is_text, nonempty, field.
  destruct (Op.get_default d "answer" PNone); cbv beta iota; intros H1 H2;
    try reflexivity; rewrite H2 in H1; discriminate H1.
Qed.

Lemma strings_from_map i l : Op.strings_from i (map PStr l) = Ok l.
Proof.
  revert i. induction l as [|s l IH]; intros i; simpl.
  - reflexivity.
  - rewrite IH. reflexivity.
Qed.

Lemma final_response_strings l fallback :
  final_response (map PStr l) fallback = ([], Ok (joined_or l fallback)).
Proof.
  destruct l as [|s l]; [reflexivity|].
  unfold final_response, joined_or, Op.join.
  change (map PStr (s :: l)) with (PStr s :: map PStr l).
  cbv beta iota. change (PStr s :: map PStr l) with (map PStr (s :: l)).
  rewrite strings_from_map. reflexivity.
Qed.

Lemma gt_zero_number d :
  chunks_count_is_number d = true ->
  Op.gt_zero (Op.get_default d "chunks_count" (PInt 0)) = Ok (chunks_positive d).
Proof.
  unfold chunks_count_is_number, chunks_positive.
  destruct (Op.get_default d "chunks_count" (PInt 0)); try discriminate; reflexivity.
Qed.

Ltac run_text Ha Hc :=
  unfold Op.get;
  repeat (rewrite append_field_dict; step_handler);
  rewrite (gt_zero_number _ Hc); cbv beta iota;
  match goal with
  | |- context [nonempty ?d "answer"] =>
      destruct (nonempty d "answer") eqn:Eanswer;
      [rewrite (answer_text d Ha Eanswer)|]
  end;
  repeat match goal with
         | |- context [if ?b then _ else _] => destruct b
         end;
  reflexivity.

Lemma code_assistant_text_dict d :
  answer_is_text d = true ->
  chunks_count_is_number d = true ->
  code_assistant_text (PDict d)
  = ([], Ok (joined_or (code_assistant_parts d) "No response from code assistant.")).
Proof.
  intros Ha Hc. unfold code_assistant_text, code_assistant_parts, part.
  run_text Ha Hc.
Qed.

Lemma universal_code_assistant_text_dict d :
  answer_is_text d = true ->
  chunks_count_is_number d = true ->
  universal_code_assistant_text (PDict d)
  = ([], Ok (joined_or (universal_code_assistant_parts d)
               "No response from universal code assistant.")).
Proof.
  intros Ha Hc. unfold universal_code_assistant_text, universal_code_assistant_parts, part.
  run_text Ha Hc.
Qed.

(** C1, as stated, fails: a body whose [ok] field is true can end in an
    error-flagged result. With [{"ok": true, "answer": "X", "chunks_count":
    null}] the comparison [chunks_count > 0] raises, with [{"ok": true,
    "answer": 5}] the join of the parts raises, and the handler's catch-all
    clause reports either as an unexpected error. *)
Lemma success_mapping_as_stated_fails :
  let arguments := [("message", PStr "hi")] in
  let d1 := [("ok", PBool true); ("answer", PStr "X"); ("chunks_count", PNone)] in
  let d2 := [("ok", PBool true); ("answer", PInt 5)] in
  let code := result (handle_code_assistant default_config (replying (PDict d1)) arguments) in
  let universal :=
    result (handle_universal_code_assistant default_config (replying (PDict d2))
              arguments) in
  Op.dict_get d1 "ok" = Some (PBool true)
  /\ Op.dict_get d2 "ok" = Some (PBool true)
  /\ code = Ok (error_result
                  ("Unexpected Error: TypeError: '>' not supported between instances of "
                   ++ "'NoneType' and 'int'"))
  /\ universal = Ok (error_result
                       ("Unexpected Error: TypeError: sequence item 0: "
                        ++ "expected str instance, int found"))
  /\ ~ (exists r, code = Ok r /\ isError r = false)
  /\ ~ (exists r, universal = Ok r /\ isError r = false).
Proof.
  repeat split; try reflexivity;
    intros (r & H & E); vm_compute in H; injection H as <-; discriminate E.
Qed.

(** C1, amended. For every remote response whose body is a JSON object with
    a truthy [ok] field, whose [answer] is a string when it is non-empty and
    whose [chunks_count] is a number when it is present, each handler returns
    a result that is not flagged as an error and whose text is the non-empty
    parts joined by a newline in the fixed order answer, (code_assistant
    only) fenced "Generated SQL" block, (code_assistant only) markdown, bold
    "Clarification Needed:" line, then the chunks_count footer when
    chunks_count > 0 (for universal_code_assistant with the language field,
    "unknown" when absent); without any part the text is the handler's "No
    response from ..." fallback. *)
Theorem success_mapping config http arguments s d :
  Op.get_default arguments "message" (PStr "") = PStr s ->
  Py.strip s <> "" ->
  received (http (chat_request config (rag_chat_url config) arguments (Py.strip s)))
  = Ok (PDict d) ->
  received (http (chat_request config (universal_rag_url config) arguments (Py.strip s)))
  = Ok (PDict d) ->
  Py.truthy (Op.get_default d "ok" (PBool false)) = true ->
  answer_is_text d = true ->
  chunks_count_is_number d = true ->
  result (handle_code_assistant config http arguments)
  = Ok {| content := [ {| type := "text";
                          text := joined_or (code_assistant_parts d)
                                    "No response from code assistant." |} ];
          isError := false |}
  /\ result (handle_universal_code_assistant config http arguments)
     = Ok {| content := [ {| type := "text";
                             text := joined_or (universal_code_assistant_parts d)
                                       "No response from universal code assistant." |} ];
             isError := false |}.
Proof.
  intros Hm Hs Hc Hu Hok Ha Hn. split.
  - rewrite (handle_code_assistant_valid config http arguments s Hm Hs), Hc.
    rewrite code_assistant_map_response_dict, Hok.
    unfold code_assistant_success. rewrite (code_assistant_text_dict d Ha Hn).
    reflexivity.
  - rewrite (handle_universal_code_assistant_valid config http arguments s Hm Hs), Hu.
    rewrite universal_code_assistant_map_response_dict, Hok.
    unfold universal_code_assistant_success.
    rewrite (universal_code_assistant_text_dict d Ha Hn).
    reflexivity.
Qed.

Lemma success_mapping_witness :
  let d := [("ok", PBool true); ("answer", PStr "X"); ("chunks_count", PInt 3)] in
  result (handle_code_assistant default_config (replying (PDict d))
            [("message", PStr "hi")])
  = Ok (text_result
          ("X" ++ Py.nl ++ Py.nl ++ Py.nl ++ "---" ++ Py.nl
           ++ "*Context: 3 code chunks analyzed from your codebase*")).
Proof.
  exact (proj1 (success_mapping default_config
                  (replying (PDict [("ok", PBool true); ("answer", PStr "X");
                                    ("chunks_count", PInt 3)]))
                  [("message", PStr "hi")] "hi"
                  [("ok", PBool true); ("answer", PStr "X"); ("chunks_count", PInt 3)]
                  eq_refl ltac:(vm_compute; intros H; discriminate H)
                  eq_refl eq_refl eq_refl eq_refl eq_refl)).
Defined.

(** The fallback text, when no part is produced. *)
Example no_response_demo :
  result (handle_universal_code_assistant default_config
            (replying (PDict [("ok", PBool true); ("answer", PStr "")]))
            [("message", PStr "hi")])
  = Ok (text_result "No response from universal code assistant.").
Proof. reflexivity. Qed.

(* ------------------------------------------------------------------ *)
(** * Further properties of the handlers and of the router *)

(** ** The three ways a handler can run *)

Lemma strip_not_string v : is_string v = false -> Op.strip v = Raise (no_strip v).
Proof. destruct v; try reflexivity. discriminate. Qed.

Lemma message_cases (arguments : dict) :
  (exists v, Op.dict_get arguments "message" = Some v /\ is_string v = false)
  \/ (exists s, Op.get_default arguments "message" (PStr "") = PStr s).
Proof.
  unfold Op.get_default.
  destruct (Op.dict_get arguments "message") as [v|]; [|right; eexists; reflexivity].
  destruct v; try (left; eexists; split; reflexivity).
  right. eexists. reflexivity.
Qed.

Lemma message_default v arguments :
  Op.dict_get arguments "message" = Some v ->
  Op.get_default arguments "message" (PStr "") = v.
Proof. unfold Op.get_default. intros ->. reflexivity. Qed.

Lemma handle_code_assistant_not_string config http arguments v :
  Op.dict_get arguments "message" = Some v -> is_string v = false ->
  handle_code_assistant config http arguments = ([], Raise (no_strip v)).
Proof.
  intros Hm Hv. unfold handle_code_assistant.
  rewrite (message_default _ _ Hm), (strip_not_string _ Hv). reflexivity.
Qed.

Lemma handle_universal_code_assistant_not_string config http arguments v :
  Op.dict_get arguments "message" = Some v -> is_string v = false ->
  handle_universal_code_assistant config http arguments = ([], Raise (no_strip v)).
Proof.
  intros Hm Hv. unfold handle_universal_code_assistant.
  rewrite (message_default _ _ Hm), (strip_not_string _ Hv). reflexivity.
Qed.

Lemma handle_code_assistant_blank config http arguments s :
  Op.get_default arguments "message" (PStr "") = PStr s -> Py.strip s = "" ->
  handle_code_assistant config http arguments
  = ([], Ok (error_result "Please provide a message/question for the code assistant.")).
Proof.
  intros Hm Hs. unfold handle_code_assistant. rewrite Hm.
  unfold Op.strip, lift, bind. rewrite Hs. reflexivity.
Qed.

Lemma handle_universal_code_assistant_blank config http arguments s :
  Op.get_default arguments "message" (PStr "") = PStr s -> Py.strip s = "" ->
  handle_universal_code_assistant config http arguments
  = ([], Ok (error_result
               "Please provide a message/question for the universal code assistant.")).
Proof.
  intros Hm Hs. unfold handle_universal_code_assistant. rewrite Hm.
  unfold Op.strip, lift, bind. rewrite Hs. reflexivity.
Qed.

Lemma handle_code_assistant_sent config http arguments s :
  Op.get_default arguments "message" (PStr "") = PStr s -> Py.strip s <> "" ->
  let request := chat_request config (rag_chat_url config) arguments (Py.strip s) in
  handle_code_assistant config http arguments
  = (Log INFO ("Calling RAG API: " ++ rag_chat_url config) :: HttpPost request
     :: events (code_assistant_after config (received (http request))),
     result (code_assistant_after config (received (http request)))).
Proof. intros Hm Hs. exact (handle_code_assistant_valid config http arguments s Hm Hs). Qed.

Lemma handle_universal_code_assistant_sent config http arguments s :
  Op.get_default arguments "message" (PStr "") = PStr s -> Py.strip s <> "" ->
  let request := chat_request config (universal_rag_url config) arguments (Py.strip s) in
  handle_universal_code_assistant config http arguments
  = (Log INFO ("Calling Universal RAG API: " ++ universal_rag_url config)
     :: HttpPost request
     :: events (universal_code_assistant_after config (received (http request))),
     result (universal_code_assistant_after config (received (http request)))).
Proof.
  intros Hm Hs. exact (handle_universal_code_assistant_valid config http arguments s Hm Hs).
Qed.

(** What follows the request always ends with a single text block, and that
    block is flagged unless the body is an object with a truthy [ok]. *)
Lemma code_assistant_after_result config o :
  exists t flag,
    result (code_assistant_after config o) = Ok (one_text_block t flag)
    /\ (flag = false ->
        exists d, o = Ok (PDict d)
                  /\ Py.truthy (Op.get_default d "ok" (PBool false)) = true).
Proof.
  destruct o as [data|e];
    [|destruct e; (eexists _, true; split; [reflexivity | discriminate])].
  destruct data as [| b | z | f | s | l | d];
    try (eexists _, true; split; [reflexivity | discriminate]).
  unfold code_assistant_after. rewrite code_assistant_map_response_dict.
  destruct (Py.truthy (Op.get_default d "ok" (PBool false))) eqn:Hok;
    [|eexists _, true; split; [reflexivity | discriminate]].
  unfold code_assistant_success.
  destruct (code_assistant_text (PDict d)) as [t [r|e]].
  - eexists _, false. split; [reflexivity|]. intros _. exists d. split; trivial.
  - destruct e; (eexists _, true; split; [reflexivity | discriminate]).
Qed.

Lemma universal_code_assistant_after_result config o :
  exists t flag,
    result (universal_code_assistant_after config o) = Ok (one_text_block t flag)
    /\ (flag = false ->
        exists d, o = Ok (PDict d)
                  /\ Py.truthy (Op.get_default d "ok" (PBool false)) = true).
Proof.
  destruct o as [data|e];
    [|destruct e; (eexists _, true; split; [reflexivity | discriminate])].
  destruct data as [| b | z | f | s | l | d];
    try (eexists _, true; split; [reflexivity | discriminate]).
  unfold universal_code_assistant_after.
  rewrite universal_code_assistant_map_response_dict.
  destruct (Py.truthy (Op.get_default d "ok" (PBool false))) eqn:Hok;
    [|eexists _, true; split; [reflexivity | discriminate]].
  unfold universal_code_assistant_success.
  destruct (universal_code_assistant_text (PDict d)) as [t [r|e]].
  - eexists _, false. split; [reflexivity|]. intros _. exists d. split; trivial.
  - destruct e; (eexists _, true; split; [reflexivity | discriminate]).
Qed.

(** How each handler ends: it raises on a message that is not a string, and
    otherwise returns one text block. *)
Lemma handle_code_assistant_outcome config http arguments :
  (exists v, Op.dict_get arguments "message" = Some v /\ is_string v = false
             /\ handle_code_assistant config http arguments = ([], Raise (no_strip v)))
  \/ (exists s t flag,
        Op.get_default arguments "message" (PStr "") = PStr s
        /\ result (handle_code_assistant config http arguments)
           = Ok (one_text_block t flag)
        /\ (flag = false ->
            Py.strip s <> ""
            /\ exists d,
                received (http (chat_request config (rag_chat_url config) arguments
                                  (Py.strip s))) = Ok (PDict d)
                /\ Py.truthy (Op.get_default d "ok" (PBool false)) = true)).
Proof.
  destruct (message_cases arguments) as [(v & Hm & Hv) | (s & Hm)].
  - left. exists v. auto using handle_code_assistant_not_string.
  - right. exists s. destruct (string_dec (Py.strip s) "") as [Hs|Hs].
    + rewrite (handle_code_assistant_blank config http arguments s Hm Hs).
      eexists _, true. split; [exact Hm|]. split; [reflexivity | discriminate].
    + rewrite (handle_code_assistant_sent config http arguments s Hm Hs).
      destruct (code_assistant_after_result config
                  (received (http (chat_request config (rag_chat_url config) arguments
                                     (Py.strip s))))) as (t & flag & Hr & Hf).
      exists t, flag. split; [exact Hm|]. split; [exact Hr|].
      intros E. split; [exact Hs | exact (Hf E)]. 
Qed.

Lemma handle_universal_code_assistant_outcome config http arguments :
  (exists v, Op.dict_get arguments "message" = Some v /\ is_string v = false
             /\ handle_universal_code_assistant config http arguments
                = ([], Raise (no_strip v)))
  \/ (exists s t flag,
        Op.get_default arguments "message" (PStr "") = PStr s
        /\ result (handle_universal_code_assistant config http arguments)
           = Ok (one_text_block t flag)
        /\ (flag = false ->
            Py.strip s <> ""
            /\ exists d,
                received (http (chat_request config (universal_rag_url config) arguments
                                  (Py.strip s))) = Ok (PDict d)
                /\ Py.truthy (Op.get_default d "ok" (PBool false)) = true)).
Proof.
  destruct (message_cases arguments) as [(v & Hm & Hv) | (s & Hm)].
  - left. exists v. auto using handle_universal_code_assistant_not_string.
  - right. exists s. destruct (string_dec (Py.strip s) "") as [Hs|Hs].
    + rewrite (handle_universal_code_assistant_blank config http arguments s Hm Hs).
      eexists _, true. split; [exact Hm|]. split; [reflexivity | discriminate].
    + rewrite (handle_universal_code_assistant_sent config http arguments s Hm Hs).
      destruct (universal_code_assistant_after_result config
                  (received (http (chat_request config (universal_rag_url config)
                                     arguments (Py.strip s)))))
        as (t & flag & Hr & Hf).
      exists t, flag. split; [exact Hm|]. split; [exact Hr|].
      intros E. split; [exact Hs | exact (Hf E)].
Qed.

(** X1. A handler ends by raising exactly when the [message] argument is
    present and is not a string; every failure of the network, of the remote
    service or of the response mapping is returned as a result. *)
Theorem handlers_raise_iff config http arguments :
  ((exists e, result (handle_code_assistant config http arguments) = Raise e)
   <-> (exists v, Op.dict_get arguments "message" = Some v /\ is_string v = false))
  /\ ((exists e, result (handle_universal_code_assistant config http arguments) = Raise e)
      <-> (exists v, Op.dict_get arguments "message" = Some v /\ is_string v = false)).
Proof.
  split; split.
  - intros [e He].
    destruct (handle_code_assistant_outcome config http arguments)
      as [(v & Hm & Hv & _) | (s & t & flag & _ & Hr & _)].
    + exists v. auto.
    + rewrite Hr in He. discriminate He.
  - intros (v & Hm & Hv).
    rewrite (handle_code_assistant_not_string config http arguments v Hm Hv).
    eexists. reflexivity.
  - intros [e He].
    destruct (handle_universal_code_assistant_outcome config http arguments)
      as [(v & Hm & Hv & _) | (s & t & flag & _ & Hr & _)].
    + exists v. auto.
    + rewrite Hr in He. discriminate He.
  - intros (v & Hm & Hv).
    rewrite (handle_universal_code_assistant_not_string config http arguments v Hm Hv).
    eexists. reflexivity.
Qed.

(** ** One request at most *)

Lemma handle_code_assistant_posts config http arguments :
  (length (posts (events (handle_code_assistant config http arguments))) <= 1)%nat.
Proof.
  destruct (message_cases arguments) as [(v & Hm & Hv) | (s & Hm)].
  - rewrite (handle_code_assistant_not_string config http arguments v Hm Hv).
    apply Nat.le_0_l.
  - destruct (string_dec (Py.strip s) "") as [Hs|Hs].
    + rewrite (handle_code_assistant_blank config http arguments s Hm Hs).
      apply Nat.le_0_l.
    + rewrite (handle_code_assistant_valid config http arguments s Hm Hs).
      unfold events at 1, fst.
      change (posts (?a :: HttpPost ?r :: ?t)) with (r :: posts t).
      rewrite posts_after_code. apply Nat.le_refl.
Qed.

Lemma handle_universal_code_assistant_posts config http arguments :
  (length (posts (events (handle_universal_code_assistant config http arguments)))
   <= 1)%nat.
Proof.
  destruct (message_cases arguments) as [(v & Hm & Hv) | (s & Hm)].
  - rewrite (handle_universal_code_assistant_not_string config http arguments v Hm Hv).
    apply Nat.le_0_l.
  - destruct (string_dec (Py.strip s) "") as [Hs|Hs].
    + rewrite (handle_universal_code_assistant_blank config http arguments s Hm Hs).
      apply Nat.le_0_l.
    + rewrite (handle_universal_code_assistant_valid config http arguments s Hm Hs).
      unfold events at 1, fst.
      change (posts (?a :: HttpPost ?r :: ?t)) with (r :: posts t).
      rewrite posts_after_universal. apply Nat.le_refl.
Qed.

(** The handler a name selects, if any. *)
Lemma handlers_get_some config code universal tool h :
  handlers_get (build_handlers config code universal) tool = Some h ->
  (tool = "code_assistant" /\ ENABLE_DOTNET_RAG config = true /\ h = code)
  \/ (tool = "universal_code_assistant" /\ ENABLE_UNIVERSAL_RAG config = true
      /\ h = universal).
Proof.
  rewrite build_handlers_enabled.
  destruct (ENABLE_DOTNET_RAG config), (ENABLE_UNIVERSAL_RAG config);
    cbn -[String.eqb]; case_eqb; subst; intros H; try discriminate H;
    injection H as <-; auto.
Qed.

(** The requests of a run of the router are those of the selected handler. *)
Lemma call_tool_with_posts config code universal tool arguments :
  posts (events (call_tool_with config code universal tool arguments))
  = match handlers_get (build_handlers config code universal) tool with
    | Some h => posts (events (h arguments))
    | None => []
    end.
Proof.
  unfold call_tool_with.
  destruct (handlers_get (build_handlers config code universal) tool) as [h|];
    [|reflexivity].
  destruct (h arguments) as [t [r|e]]; unfold events; cbn [fst].
  - reflexivity.
  - cbv beta iota delta [bind logger_info logger_error try_except fst snd ret app].
    fold (app (A := event)).
    change (posts (?a :: ?l)) with (posts [a] ++ posts l)%list.
    rewrite posts_app. cbn [posts flat_map app]. apply app_nil_r.
Qed.

(** X2. One invocation of [call_tool] sends at most one HTTP request,
    whatever the tool name, the arguments and the behaviour of the network:
    no retry, no second endpoint. *)
Theorem call_tool_at_most_one_post config http tool arguments :
  (length (posts (events (call_tool config http tool arguments))) <= 1)%nat.
Proof.
  unfold call_tool. rewrite call_tool_with_posts.
  destruct (handlers_get _ tool) as [h|] eqn:Hh; [|apply Nat.le_0_l].
  destruct (handlers_get_some _ _ _ _ _ Hh) as [(_ & _ & ->) | (_ & _ & ->)].
  - apply handle_code_assistant_posts.
  - apply handle_universal_code_assistant_posts.
Qed.

(** ** Validation *)

(** X3. For a [message] that is a string (or absent), a handler answers
    with its guidance text and without any event exactly when the message is
    empty or made of whitespace only; any other message is sent. *)
Theorem validation_error_iff config http arguments s :
  Op.get_default arguments "message" (PStr "") = PStr s ->
  (handle_code_assistant config http arguments
   = ([], Ok (error_result "Please provide a message/question for the code assistant."))
   <-> all_space s = true)
  /\ (handle_universal_code_assistant config http arguments
      = ([], Ok (error_result
                   "Please provide a message/question for the universal code assistant."))
      <-> all_space s = true).
Proof.
  intros Hm. split; split.
  - intros H. apply strip_empty_iff.
    destruct (string_dec (Py.strip s) "") as [Hs|Hs]; [exact Hs|].
    rewrite (handle_code_assistant_valid config http arguments s Hm Hs) in H.
    discriminate H.
  - intros H. apply strip_empty_iff in H.
    apply (handle_code_assistant_blank config http arguments s Hm H).
  - intros H. apply strip_empty_iff.
    destruct (string_dec (Py.strip s) "") as [Hs|Hs]; [exact Hs|].
    rewrite (handle_universal_code_assistant_valid config http arguments s Hm Hs) in H.
    discriminate H.
  - intros H. apply strip_empty_iff in H.
    apply (handle_universal_code_assistant_blank config http arguments s Hm H).
Qed.

Lemma validation_error_iff_witness :
  handle_code_assistant default_config refusing [("message", PStr (Py.nl ++ "  "))]
  = ([], Ok (error_result "Please provide a message/question for the code assistant.")).
Proof.
  apply (proj1 (validation_error_iff default_config refusing
                  [("message", PStr (Py.nl ++ "  "))] (Py.nl ++ "  ") eq_refl)).
  reflexivity.
Defined.

(** ** Results *)

Lemma call_tool_with_result config code universal tool arguments :
  result (call_tool_with config code universal tool arguments)
  = match handlers_get (build_handlers config code universal) tool with
    | None =>
        Ok (error_result
              ("Unknown tool: '" ++ tool ++ "'. Available tools: "
               ++ Py.join ", " (handlers_keys (build_handlers config code universal))))
    | Some h =>
        match result (h arguments) with
        | Ok r => Ok r
        | Raise e =>
            Ok (error_result ("Error executing tool '" ++ tool ++ "': " ++ exn_str e))
        end
    end.
Proof.
  unfold call_tool_with.
  destruct (handlers_get (build_handlers config code universal) tool) as [h|];
    [|reflexivity].
  destruct (h arguments) as [t [r|e]]; reflexivity.
Qed.

(** X4. Every invocation of [call_tool] ends with a result made of exactly
    one block of type "text": unknown names, invalid arguments, handler
    exceptions and every answer of the network included. *)
Theorem call_tool_one_text_block config http tool arguments :
  exists t flag,
    result (call_tool config http tool arguments) = Ok (one_text_block t flag).
Proof.
  unfold call_tool. rewrite call_tool_with_result.
  destruct (handlers_get _ tool) as [h|] eqn:Hh; [|eexists _, _; reflexivity].
  destruct (handlers_get_some _ _ _ _ _ Hh) as [(_ & _ & ->) | (_ & _ & ->)].
  - destruct (handle_code_assistant_outcome config http arguments)
      as [(v & _ & _ & ->) | (s & t & flag & _ & -> & _)];
      eexists _, _; reflexivity.
  - destruct (handle_universal_code_assistant_outcome config http arguments)
      as [(v & _ & _ & ->) | (s & t & flag & _ & -> & _)];
      eexists _, _; reflexivity.
Qed.

(** X5. [call_tool] returns a result that is not flagged as an error only
    when the name is that of an enabled tool, the message is a string that
    trimming does not empty, and the request to that tool's URL was answered
    with a 2xx status and a JSON object whose [ok] field is truthy. *)
Theorem success_only_when_remote_ok config http tool arguments r :
  result (call_tool config http tool arguments) = Ok r ->
  isError r = false ->
  exists s d endpoint,
    Op.get_default arguments "message" (PStr "") = PStr s
    /\ Py.strip s <> ""
    /\ ((tool = "code_assistant" /\ ENABLE_DOTNET_RAG config = true
         /\ endpoint = rag_chat_url config)
        \/ (tool = "universal_code_assistant" /\ ENABLE_UNIVERSAL_RAG config = true
            /\ endpoint = universal_rag_url config))
    /\ received (http (chat_request config endpoint arguments (Py.strip s)))
       = Ok (PDict d)
    /\ Py.truthy (Op.get_default d "ok" (PBool false)) = true.
Proof.
  unfold call_tool. rewrite call_tool_with_result.
  destruct (handlers_get _ tool) as [h|] eqn:Hh;
    [|intros H; injection H as <-; discriminate].
  destruct (handlers_get_some _ _ _ _ _ Hh) as [(Ht & He & ->) | (Ht & He & ->)].
  - destruct (handle_code_assistant_outcome config http arguments)
      as [(v & _ & _ & ->) | (s & t & flag & Hm & -> & Hf)];
      intros H; injection H as <-; [discriminate|].
    intros E. destruct (Hf E) as (Hs & d & Hr & Hok).
    exists s, d, (rag_chat_url config). auto 10.
  - destruct (handle_universal_code_assistant_outcome config http arguments)
      as [(v & _ & _ & ->) | (s & t & flag & Hm & -> & Hf)];
      intros H; injection H as <-; [discriminate|].
    intros E. destruct (Hf E) as (Hs & d & Hr & Hok).
    exists s, d, (universal_rag_url config). auto 10.
Qed.

Lemma success_only_when_remote_ok_witness :
  exists s d endpoint,
    Op.get_default [("message", PStr " hi")] "message" (PStr "") = PStr s
    /\ Py.strip s <> ""
    /\ (("code_assistant" = "code_assistant" /\ ENABLE_DOTNET_RAG default_config = true
         /\ endpoint = rag_chat_url default_config)
        \/ ("code_assistant" = "universal_code_assistant"
            /\ ENABLE_UNIVERSAL_RAG default_config = true
            /\ endpoint = universal_rag_url default_config))
    /\ received (replying (PDict [("ok", PInt 1)])
                   (chat_request default_config endpoint [("message", PStr " hi")]
                      (Py.strip s)))
       = Ok (PDict d)
    /\ Py.truthy (Op.get_default d "ok" (PBool false)) = true.
Proof.
  exact (success_only_when_remote_ok default_config
           (replying (PDict [("ok", PInt 1)])) "code_assistant"
           [("message", PStr " hi")]
           (text_result "No response from code assistant.") eq_refl eq_refl).
Defined.

(** ** Replies that are not a JSON object, and replies with a bad status *)

(** X6. When the reply has a 2xx status and its body parses to JSON that
    is not an object (an array, a string, a number, [null]), each handler
    returns "Unexpected Error: AttributeError: '<type>' object has no
    attribute 'get'" flagged as an error, logs it, and never writes its
    "response received" record. *)
Theorem non_object_body_unexpected config http arguments s data :
  Op.get_default arguments "message" (PStr "") = PStr s ->
  Py.strip s <> "" ->
  received (http (chat_request config (rag_chat_url config) arguments (Py.strip s)))
  = Ok data ->
  received (http (chat_request config (universal_rag_url config) arguments (Py.strip s)))
  = Ok data ->
  is_dict data = false ->
  let complaint := "'" ++ Py.type_name data ++ "' object has no attribute 'get'" in
  handle_code_assistant config http arguments
  = ([Log INFO ("Calling RAG API: " ++ rag_chat_url config);
      HttpPost (chat_request config (rag_chat_url config) arguments (Py.strip s));
      Log ERROR ("Unexpected error: " ++ complaint)],
     Ok (error_result ("Unexpected Error: AttributeError: " ++ complaint)))
  /\ handle_universal_code_assistant config http arguments
     = ([Log INFO ("Calling Universal RAG API: " ++ universal_rag_url config);
         HttpPost (chat_request config (universal_rag_url config) arguments (Py.strip s));
         Log ERROR ("Unexpected error: " ++ complaint)],
        Ok (error_result ("Unexpected Error: AttributeError: " ++ complaint))).
Proof.
  intros Hm Hs Hc Hu Hd complaint. split.
  - rewrite (handle_code_assistant_valid config http arguments s Hm Hs), Hc.
    destruct data; try discriminate Hd; reflexivity.
  - rewrite (handle_universal_code_assistant_valid config http arguments s Hm Hs), Hu.
    destruct data; try discriminate Hd; reflexivity.
Qed.

Lemma non_object_body_unexpected_witness :
  result (handle_code_assistant default_config (replying (PList []))
            [("message", PStr "hi")])
  = Ok (error_result
          "Unexpected Error: AttributeError: 'list' object has no attribute 'get'").
Proof.
  exact (f_equal snd
           (proj1 (non_object_body_unexpected default_config (replying (PList []))
                     [("message", PStr "hi")] "hi" (PList []) eq_refl
                     ltac:(vm_compute; intros H; discriminate H)
                     eq_refl eq_refl eq_refl))).
Defined.

(** X7. When the reply has a status outside 200..299 (a redirect or an
    informational status as well as a client or server error), each handler
    returns "HTTP Error <status>: <raw body>" flagged as an error; the body
    is not parsed, so the result is the same whether or not it is JSON. *)
Theorem bad_status_reported config http arguments s response :
  Op.get_default arguments "message" (PStr "") = PStr s ->
  Py.strip s <> "" ->
  http (chat_request config (rag_chat_url config) arguments (Py.strip s)) = Ok response ->
  http (chat_request config (universal_rag_url config) arguments (Py.strip s))
  = Ok response ->
  (status_code response < 200 \/ 299 < status_code response)%Z ->
  result (handle_code_assistant config http arguments)
  = Ok (error_result ("HTTP Error " ++ Py.str_of_int (status_code response) ++ ": "
                      ++ response_text response))
  /\ result (handle_universal_code_assistant config http arguments)
     = Ok (error_result ("HTTP Error " ++ Py.str_of_int (status_code response) ++ ": "
                         ++ response_text response)).
Proof.
  intros Hm Hs Hc Hu Hb.
  assert (Hr : raise_for_status response
               = Raise (HTTPStatusError (status_error response) (status_code response)
                          (response_text response))).
  { unfold raise_for_status.
    destruct (Z.leb_spec 200 (status_code response)),
             (Z.leb_spec (status_code response) 299); try reflexivity; lia. }
  split.
  - rewrite (handle_code_assistant_valid config http arguments s Hm Hs), Hc.
    unfold received. rewrite Hr. reflexivity.
  - rewrite (handle_universal_code_assistant_valid config http arguments s Hm Hs), Hu.
    unfold received. rewrite Hr. reflexivity.
Qed.

Lemma bad_status_reported_witness :
  result (handle_universal_code_assistant default_config (answering 302 "moved")
            [("message", PStr "hi")])
  = Ok (error_result "HTTP Error 302: moved").
Proof.
  exact (proj2 (bad_status_reported default_config (answering 302 "moved")
                  [("message", PStr "hi")] "hi" _
                  eq_refl ltac:(vm_compute; intros H; discriminate H)
                  eq_refl eq_refl ltac:(right; reflexivity))).
Defined.

(** X8. When the connection cannot be made, each handler returns an error
    text that names the URL it tried (base URL followed by the endpoint) and
    the command that starts the service, and logs that URL; the message of the
    exception itself is not shown. *)
Theorem connection_failure_reported config http arguments s msg :
  Op.get_default arguments "message" (PStr "") = PStr s ->
  Py.strip s <> "" ->
  http (chat_request config (rag_chat_url config) arguments (Py.strip s))
  = Raise (ConnectError msg) ->
  http (chat_request config (universal_rag_url config) arguments (Py.strip s))
  = Raise (ConnectError msg) ->
  handle_code_assistant config http arguments
  = ([Log INFO ("Calling RAG API: " ++ rag_chat_url config);
      HttpPost (chat_request config (rag_chat_url config) arguments (Py.strip s));
      Log ERROR ("Connection error to " ++ RAG_API_BASE_URL config
                 ++ RAG_CHAT_ENDPOINT config)],
     Ok (error_result
           ("Connection Error: Cannot reach RAG API at "
            ++ (RAG_API_BASE_URL config ++ RAG_CHAT_ENDPOINT config) ++ Py.nl ++ Py.nl
            ++ "Please ensure your Python RAG server is running:" ++ Py.nl
            ++ "cd /path/to/your/rag-project" ++ Py.nl
            ++ "source env_container/bin/activate" ++ Py.nl
            ++ "uvicorn main:app --reload --port 8900")))
  /\ handle_universal_code_assistant config http arguments
     = ([Log INFO ("Calling Universal RAG API: " ++ universal_rag_url config);
         HttpPost (chat_request config (universal_rag_url config) arguments (Py.strip s));
         Log ERROR ("Connection error to " ++ RAG_API_BASE_URL config
                    ++ UNIVERSAL_RAG_ENDPOINT config)],
        Ok (error_result
              ("Connection Error: Cannot reach Universal RAG API at "
               ++ (RAG_API_BASE_URL config ++ UNIVERSAL_RAG_ENDPOINT config)
               ++ Py.nl ++ Py.nl
               ++ "Please ensure your Python RAG server is running:" ++ Py.nl
               ++ "uvicorn main:app --reload --port 8900"))).
Proof.
  intros Hm Hs Hc Hu. split.
  - rewrite (handle_code_assistant_valid config http arguments s Hm Hs), Hc. reflexivity.
  - rewrite (handle_universal_code_assistant_valid config http arguments s Hm Hs), Hu.
    reflexivity.
Qed.

Lemma connection_failure_reported_witness :
  option_map (contains "http://localhost:8900/api/chat/rag")
    (returned_text (handle_code_assistant default_config refusing
                      [("message", PStr "hi")]))
  = Some true.
Proof.
  rewrite (proj1 (connection_failure_reported default_config refusing
                    [("message", PStr "hi")] "hi" "All connection attempts failed"
                    eq_refl ltac:(vm_compute; intros H; discriminate H)
                    eq_refl eq_refl)).
  reflexivity.
Defined.

(** X9. The result of an [except] clause tells which clause produced it:
    two exceptions caught by different clauses of the same handler never give
    the same result. *)
Theorem failure_results_distinct config e1 e2 :
  (result (code_assistant_except config e1) = result (code_assistant_except config e2)
   -> clause_of e1 = clause_of e2)
  /\ (result (universal_code_assistant_except config e1)
      = result (universal_code_assistant_except config e2)
      -> clause_of e1 = clause_of e2).
Proof.
  split; destruct e1, e2; intros H; try reflexivity; discriminate H.
Qed.

Lemma failure_results_distinct_witness :
  clause_of (TimeoutException "ReadTimeout" "") = clause_of (TimeoutException "PoolTimeout" "x").
Proof.
  exact (proj1 (failure_results_distinct default_config
                  (TimeoutException "ReadTimeout" "") (TimeoutException "PoolTimeout" "x"))
           eq_refl).
Defined.

(** ** Listing and dispatch *)

(** X10. The router has a handler for a name exactly when [list_tools]
    lists a tool of that name: listing and dispatch never disagree, for any
    value of the flags. *)
Theorem listing_dispatch_agree config code universal tool :
  (exists h, handlers_get (build_handlers config code universal) tool = Some h)
  <-> In tool (map name (list_tools config)).
Proof.
  rewrite list_tools_names, build_handlers_enabled.
  destruct (ENABLE_DOTNET_RAG config), (ENABLE_UNIVERSAL_RAG config);
    cbn -[String.eqb]; case_eqb; subst; split;
      try (intros [h H]; discriminate H);
      try (intros _; eexists; reflexivity);
      try tauto;
      try (intros [H|[H|[]]]; congruence);
      try (intros [H|[]]; congruence);
      try (intros []).
Qed.

(** ** What the universal handler leaves out *)

Lemma get_default_ext d d' key default :
  Op.dict_get d key = Op.dict_get d' key ->
  Op.get_default d key default = Op.get_default d' key default.
Proof. unfold Op.get_default. intros ->. reflexivity. Qed.

(** X11. The mapping of [handle_universal_code_assistant] does not read the
    [sql] and [markdown] fields: two bodies that agree on every other field
    are mapped to the same events and the same result. *)
Theorem universal_ignores_sql_and_markdown d d' :
  (forall key, key <> "sql" -> key <> "markdown" ->
               Op.dict_get d key = Op.dict_get d' key) ->
  universal_code_assistant_map_response (PDict d)
  = universal_code_assistant_map_response (PDict d').
Proof.
  intros H.
  assert (Hok : Op.dict_get d "ok" = Op.dict_get d' "ok")
    by (apply H; discriminate).
  assert (Herror : Op.dict_get d "error" = Op.dict_get d' "error")
    by (apply H; discriminate).
  assert (Hmessage : Op.dict_get d "message" = Op.dict_get d' "message")
    by (apply H; discriminate).
  assert (Hanswer : Op.dict_get d "answer" = Op.dict_get d' "answer")
    by (apply H; discriminate).
  assert (Hneeds : Op.dict_get d "needs_clarification"
                   = Op.dict_get d' "needs_clarification")
    by (apply H; discriminate).
  assert (Hchunks : Op.dict_get d "chunks_count" = Op.dict_get d' "chunks_count")
    by (apply H; discriminate).
  assert (Hlanguage : Op.dict_get d "language" = Op.dict_get d' "language")
    by (apply H; discriminate).
  unfold universal_code_assistant_map_response, universal_code_assistant_text,
    error_or_message, append_field, Op.get, Op.getitem, Op.get_default.
  rewrite Hok, Herror, Hmessage, Hanswer, Hneeds, Hchunks, Hlanguage.
  reflexivity.
Qed.

Lemma universal_ignores_sql_and_markdown_witness :
  universal_code_assistant_map_response
    (PDict [("ok", PBool true); ("sql", PStr "SELECT 1"); ("answer", PStr "X")])
  = universal_code_assistant_map_response
      (PDict [("ok", PBool true); ("answer", PStr "X"); ("markdown", PStr "# T")]).
Proof.
  apply universal_ignores_sql_and_markdown.
  intros key Hs Hm. cbn -[String.eqb].
  destruct (String.eqb_spec "ok" key); [reflexivity|].
  destruct (String.eqb_spec "sql" key); [congruence|].
  destruct (String.eqb_spec "answer" key); [reflexivity|].
  destruct (String.eqb_spec "markdown" key); [congruence|].
  reflexivity.
Defined.

(** ** The message that is sent *)

Lemma rstrip_cons c r :
  Py.rstrip (String c r) = "" \/ Py.rstrip (String c r) = String c (Py.rstrip r).
Proof.
  simpl. destruct (Py.is_space c && String.eqb (Py.rstrip r) ""); auto.
Qed.

Lemma rstrip_last s c : last_char (Py.rstrip s) = Some c -> Py.is_space c = false.
Proof.
  induction s as [|a s IH]; simpl; [discriminate|].
  destruct (Py.is_space a) eqn:Ea; simpl.
  - destruct (String.eqb_spec (Py.rstrip s) "") as [E|E]; simpl; [discriminate|].
    destruct (Py.rstrip s) eqn:Er; [contradiction|]. exact IH.
  - destruct (Py.rstrip s) eqn:Er.
    + simpl. intros H. injection H as <-. exact Ea.
    + exact IH.
Qed.

Lemma strip_first s c : first_char (Py.strip s) = Some c -> Py.is_space c = false.
Proof.
  unfold Py.strip. destruct (Py.lstrip s) as [|a r] eqn:E; [discriminate|].
  pose proof (lstrip_head _ _ _ E) as Ha.
  destruct (rstrip_cons a r) as [-> | ->]; simpl; [discriminate|].
  intros H. injection H as <-. exact Ha.
Qed.

Lemma lstrip_fixed s : (forall c, first_char s = Some c -> Py.is_space c = false) ->
  Py.lstrip s = s.
Proof.
  destruct s as [|a s]; [reflexivity|]. intros H. simpl.
  rewrite (H a eq_refl). reflexivity.
Qed.

Lemma rstrip_fixed s : (forall c, last_char s = Some c -> Py.is_space c = false) ->
  Py.rstrip s = s.
Proof.
  induction s as [|a s IH]; [reflexivity|]. intros H.
  destruct s as [|b s].
  - simpl. rewrite (H a eq_refl). reflexivity.
  - change (Py.rstrip (String a (String b s)))
      with (if Py.is_space a && String.eqb (Py.rstrip (String b s)) ""
            then "" else String a (Py.rstrip (String b s))).
    rewrite IH by (intros c Hc; apply H; exact Hc).
    rewrite andb_false_r. reflexivity.
Qed.

Lemma rstrip_first s c :
  first_char (Py.rstrip s) = Some c -> first_char s = Some c.
Proof.
  destruct s as [|a r]; [discriminate|].
  destruct (rstrip_cons a r) as [-> | ->]; [discriminate | trivial].
Qed.

(** Trimming twice is trimming once. *)
Lemma strip_idempotent s : Py.strip (Py.strip s) = Py.strip s.
Proof.
  unfold Py.strip at 1.
  rewrite lstrip_fixed by (apply strip_first).
  unfold Py.strip. apply rstrip_fixed. intros c. apply rstrip_last.
Qed.

(** X12. The message a handler puts in its request is never empty, does
    not begin or end with a whitespace character, and is left unchanged by a
    further trimming. *)
Theorem sent_message_trimmed config http arguments request :
  In request (posts (events (handle_code_assistant config http arguments)))
  \/ In request (posts (events (handle_universal_code_assistant config http arguments))) ->
  exists session_id m,
    json request = PDict [("session_id", session_id); ("message", PStr m)]
    /\ m <> ""
    /\ Py.strip m = m
    /\ (forall c, first_char m = Some c \/ last_char m = Some c ->
                  Py.is_space c = false).
Proof.
  assert (Hgood : forall s, Py.strip s <> "" ->
            Py.strip s <> "" /\ Py.strip (Py.strip s) = Py.strip s
            /\ (forall c, first_char (Py.strip s) = Some c
                          \/ last_char (Py.strip s) = Some c ->
                          Py.is_space c = false)).
  { intros s Hs. split; [exact Hs|]. split; [apply strip_idempotent|].
    intros c [H|H]; [exact (strip_first _ _ H) | exact (rstrip_last _ _ H)]. }
  intros [H|H].
  - destruct (message_cases arguments) as [(v & Hm & Hv) | (s & Hm)].
    + rewrite (handle_code_assistant_not_string config http arguments v Hm Hv) in H.
      destruct H.
    + destruct (string_dec (Py.strip s) "") as [Hs|Hs].
      * rewrite (handle_code_assistant_blank config http arguments s Hm Hs) in H.
        destruct H.
      * rewrite (handle_code_assistant_valid config http arguments s Hm Hs) in H.
        unfold events at 1, fst in H.
        change (posts (?a :: HttpPost ?r :: ?t)) with (r :: posts t) in H.
        rewrite posts_after_code in H. destruct H as [<-|[]].
        eexists _, _. split; [reflexivity | exact (Hgood s Hs)].
  - destruct (message_cases arguments) as [(v & Hm & Hv) | (s & Hm)].
    + rewrite (handle_universal_code_assistant_not_string config http arguments v Hm Hv)
        in H.
      destruct H.
    + destruct (string_dec (Py.strip s) "") as [Hs|Hs].
      * rewrite (handle_universal_code_assistant_blank config http arguments s Hm Hs)
          in H.
        destruct H.
      * rewrite (handle_universal_code_assistant_valid config http arguments s Hm Hs)
          in H.
        unfold events at 1, fst in H.
        change (posts (?a :: HttpPost ?r :: ?t)) with (r :: posts t) in H.
        rewrite posts_after_universal in H. destruct H as [<-|[]].
        eexists _, _. split; [reflexivity | exact (Hgood s Hs)].
Qed.

Lemma sent_message_trimmed_witness :
  exists session_id m,
    json (chat_request default_config (rag_chat_url default_config)
            [("message", PStr " a b ")] "a b")
    = PDict [("session_id", session_id); ("message", PStr m)]
    /\ m <> ""
    /\ Py.strip m = m
    /\ (forall c, first_char m = Some c \/ last_char m = Some c ->
                  Py.is_space c = false).
Proof.
  apply (sent_message_trimmed default_config refusing [("message", PStr " a b ")]).
  left. left. reflexivity.
Defined.

(** ** What a successful call logs *)

Lemma code_assistant_map_response_run d :
  code_assistant_map_response (PDict d)
  = ([Log INFO ("RAG API response received, ok="
                ++ Py.str (Op.get_default d "ok" PNone))],
     if Py.truthy (Op.get_default d "ok" (PBool false))
     then match result (code_assistant_text (PDict d)) with
          | Ok t => Ok (text_result t)
          | Raise e => Raise e
          end
     else Ok (error_result
                ("RAG API Error: "
                 ++ Py.str (first_nonempty d "Unknown error from RAG API")))).
Proof.
  unfold code_assistant_map_response, Op.get. step_handler.
  destruct (Py.truthy (Op.get_default d "ok" (PBool false))); cbv beta iota.
  - pose proof (silent_code_assistant_text (PDict d)) as Hs. unfold silent, events in Hs.
    destruct (code_assistant_text (PDict d)) as [t [r|e]]; simpl in Hs; subst t;
      reflexivity.
  - rewrite error_or_message_dict. reflexivity.
Qed.

Lemma universal_code_assistant_map_response_run d :
  universal_code_assistant_map_response (PDict d)
  = ([Log INFO ("Universal RAG API response received, ok="
                ++ Py.str (Op.get_default d "ok" PNone))],
     if Py.truthy (Op.get_default d "ok" (PBool false))
     then match result (universal_code_assistant_text (PDict d)) with
          | Ok t => Ok (text_result t)
          | Raise e => Raise e
          end
     else Ok (error_result
                ("Universal RAG API Error: "
                 ++ Py.str (first_nonempty d "Unknown error from Universal RAG API")))).
Proof.
  unfold universal_code_assistant_map_response, Op.get. step_handler.
  destruct (Py.truthy (Op.get_default d "ok" (PBool false))); cbv beta iota.
  - pose proof (silent_universal_code_assistant_text (PDict d)) as Hs.
    unfold silent, events in Hs.
    destruct (universal_code_assistant_text (PDict d)) as [t [r|e]]; simpl in Hs; subst t;
      reflexivity.
  - rewrite error_or_message_dict. reflexivity.
Qed.

Ltac flagged_contradiction :=
  let H := fresh in
  intros H; injection H as <-; discriminate.

Lemma code_assistant_after_quiet config o r :
  result (code_assistant_after config o) = Ok r -> isError r = false ->
  error_logs (events (code_assistant_after config o)) = [].
Proof.
  destruct o as [data|e]; [|destruct e; flagged_contradiction].
  destruct data as [| b | z | f | s | l | d]; try flagged_contradiction.
  unfold code_assistant_after. rewrite code_assistant_map_response_run.
  destruct (Py.truthy (Op.get_default d "ok" (PBool false)));
    [|flagged_contradiction].
  destruct (result (code_assistant_text (PDict d))) as [t|e].
  - intros _ _. reflexivity.
  - destruct e; flagged_contradiction.
Qed.

Lemma universal_code_assistant_after_quiet config o r :
  result (universal_code_assistant_after config o) = Ok r -> isError r = false ->
  error_logs (events (universal_code_assistant_after config o)) = [].
Proof.
  destruct o as [data|e]; [|destruct e; flagged_contradiction].
  destruct data as [| b | z | f | s | l | d]; try flagged_contradiction.
  unfold universal_code_assistant_after. rewrite universal_code_assistant_map_response_run.
  destruct (Py.truthy (Op.get_default d "ok" (PBool false)));
    [|flagged_contradiction].
  destruct (result (universal_code_assistant_text (PDict d))) as [t|e].
  - intros _ _. reflexivity.
  - destruct e; flagged_contradiction.
Qed.

Lemma handle_code_assistant_quiet config http arguments r :
  result (handle_code_assistant config http arguments) = Ok r -> isError r = false ->
  error_logs (events (handle_code_assistant config http arguments)) = [].
Proof.
  destruct (message_cases arguments) as [(v & Hm & Hv) | (s & Hm)].
  - rewrite (handle_code_assistant_not_string config http arguments v Hm Hv).
    discriminate.
  - destruct (string_dec (Py.strip s) "") as [Hs|Hs].
    + rewrite (handle_code_assistant_blank config http arguments s Hm Hs).
      reflexivity.
    + rewrite (handle_code_assistant_sent config http arguments s Hm Hs).
      apply code_assistant_after_quiet.
Qed.

Lemma handle_universal_code_assistant_quiet config http arguments r :
  result (handle_universal_code_assistant config http arguments) = Ok r ->
  isError r = false ->
  error_logs (events (handle_universal_code_assistant config http arguments)) = [].
Proof.
  destruct (message_cases arguments) as [(v & Hm & Hv) | (s & Hm)].
  - rewrite (handle_universal_code_assistant_not_string config http arguments v Hm Hv).
    discriminate.
  - destruct (string_dec (Py.strip s) "") as [Hs|Hs].
    + rewrite (handle_universal_code_assistant_blank config http arguments s Hm Hs).
      reflexivity.
    + rewrite (handle_universal_code_assistant_sent config http arguments s Hm Hs).
      apply universal_code_assistant_after_quiet.
Qed.

(** X13. A call that returns a result not flagged as an error has logged
    nothing at level ERROR, in the router and in the handler: an ERROR record
    always comes with an error result. *)
Theorem success_logs_no_error config http tool arguments r :
  result (call_tool config http tool arguments) = Ok r ->
  isError r = false ->
  error_logs (events (call_tool config http tool arguments)) = [].
Proof.
  unfold call_tool, call_tool_with.
  destruct (handlers_get _ tool) as [h|] eqn:Hh; [|flagged_contradiction].
  destruct (handlers_get_some _ _ _ _ _ Hh) as [(_ & _ & ->) | (_ & _ & ->)].
  - pose proof (handle_code_assistant_quiet config http arguments r) as Hq.
    destruct (handle_code_assistant config http arguments) as [t [r'|e]];
      [|flagged_contradiction].
    intros H E. injection H as ->. exact (Hq eq_refl E).
  - pose proof (handle_universal_code_assistant_quiet config http arguments r) as Hq.
    destruct (handle_universal_code_assistant config http arguments) as [t [r'|e]];
      [|flagged_contradiction].
    intros H E. injection H as ->. exact (Hq eq_refl E).
Qed.

Lemma success_logs_no_error_witness :
  error_logs (events (call_tool default_config
                        (replying (PDict [("ok", PBool true); ("answer", PStr "X")]))
                        "universal_code_assistant" [("message", PStr "hi")]))
  = [].
Proof.
  exact (success_logs_no_error default_config
           (replying (PDict [("ok", PBool true); ("answer", PStr "X")]))
           "universal_code_assistant" [("message", PStr "hi")]
           (text_result "X") eq_refl eq_refl).
Defined.

(* ------------------------------------------------------------------ *)
(** * Properties of the configuration *)

Lemma lower_char_t c : Str.lower_char c = "t"%char -> c = "t"%char \/ c = "T"%char.
Proof.
  destruct c as [[] [] [] [] [] [] [] []]; vm_compute; intros H;
    try discriminate H; auto.
Qed.

Lemma lower_char_r c : Str.lower_char c = "r"%char -> c = "r"%char \/ c = "R"%char.
Proof.
  destruct c as [[] [] [] [] [] [] [] []]; vm_compute; intros H;
    try discriminate H; auto.
Qed.

Lemma lower_char_u c : Str.lower_char c = "u"%char -> c = "u"%char \/ c = "U"%char.
Proof.
  destruct c as [[] [] [] [] [] [] [] []]; vm_compute; intros H;
    try discriminate H; auto.
Qed.

Lemma lower_char_e c : Str.lower_char c = "e"%char -> c = "e"%char \/ c = "E"%char.
Proof.
  destruct c as [[] [] [] [] [] [] [] []]; vm_compute; intros H;
    try discriminate H; auto.
Qed.

Lemma lower_true_iff v : Str.lower v = "true" <-> In v true_spellings.
Proof.
  split.
  - destruct v as [|c1 [|c2 [|c3 [|c4 [|c5 v]]]]]; simpl; intros H;
      try discriminate H.
    injection H as H1 H2 H3 H4.
    destruct (lower_char_t _ H1) as [-> | ->], (lower_char_r _ H2) as [-> | ->],
      (lower_char_u _ H3) as [-> | ->], (lower_char_e _ H4) as [-> | ->];
      unfold true_spellings; simpl; tauto.
  - unfold true_spellings. simpl.
    intros H; repeat (destruct H as [<- | H]; [reflexivity|]); destruct H.
Qed.

Lemma env_flag_iff env key :
  env_flag env key = true
  <-> match env key with
      | None => True
      | Some value => In value true_spellings
      end.
Proof.
  unfold env_flag, Os.getenv.
  destruct (env key) as [value|].
  - rewrite <- lower_true_iff. apply String.eqb_eq.
  - split; [trivial | reflexivity].
Qed.

(** X14. An enable flag is on exactly when its variable is unset or holds
    "true" in one of its sixteen letter cases; any other value, such as "1",
    "yes", the empty string or "true" followed by a space, turns it off. *)
Theorem env_flag_true_iff env key :
  env_flag env key = true
  <-> match env key with
      | None => True
      | Some value => In value true_spellings
      end.
Proof. apply env_flag_iff. Qed.

(** X15. With the settings loaded from the environment, a tool is listed
    exactly when its ENABLE variable is unset or holds
    "true" in some letter case. *)
Theorem loaded_flags_select_tools float env config future :
  load_config float env = Ok (config, future) ->
  (In "code_assistant" (map name (list_tools config))
   <-> match env "ENABLE_DOTNET_RAG" with
       | None => True
       | Some value => In value true_spellings
       end)
  /\ (In "universal_code_assistant" (map name (list_tools config))
      <-> match env "ENABLE_UNIVERSAL_RAG" with
          | None => True
          | Some value => In value true_spellings
          end).
Proof.
  unfold load_config.
  destruct (float _) as [request_timeout|e]; [|discriminate].
  intros H. injection H as <- _.
  rewrite list_tools_names. cbn [ENABLE_DOTNET_RAG ENABLE_UNIVERSAL_RAG].
  rewrite <- !env_flag_iff.
  destruct (env_flag env "ENABLE_DOTNET_RAG"), (env_flag env "ENABLE_UNIVERSAL_RAG");
    simpl; split; split; intros H; try reflexivity; try discriminate H; try tauto;
    repeat destruct H as [H|H]; try discriminate H; try destruct H.
Qed.

Lemma loaded_flags_select_tools_witness :
  ~ In "code_assistant"
      (map name (list_tools
                   (set_flags default_config false true))).
Proof.
  intros H.
  apply (proj1 (loaded_flags_select_tools float_of_default
                  (environ_of [("ENABLE_DOTNET_RAG", "1");
                               ("ENABLE_UNIVERSAL_RAG", "True")])
                  (set_flags default_config false true)
                  {| SQL_AGENT_ENDPOINT := "/api/sql/agent";
                     REACT_AGENT_ENDPOINT := "/api/react/agent";
                     JAVA_AGENT_ENDPOINT := "/api/java/agent" |}
                  eq_refl)) in H.
  vm_compute in H.
  repeat (destruct H as [H|H]; [discriminate H|]). exact H.
Defined.

(* ------------------------------------------------------------------ *)
(** * Further properties of the requests and of the response mapping *)

Lemma handle_code_assistant_posts_eq config http arguments :
  posts (events (handle_code_assistant config http arguments)) = []
  \/ exists s, posts (events (handle_code_assistant config http arguments))
               = [chat_request config (rag_chat_url config) arguments s].
Proof.
  destruct (message_cases arguments) as [(v & Hm & Hv) | (s & Hm)].
  - rewrite (handle_code_assistant_not_string config http arguments v Hm Hv). auto.
  - destruct (string_dec (Py.strip s) "") as [Hs|Hs].
    + rewrite (handle_code_assistant_blank config http arguments s Hm Hs). auto.
    + right. exists (Py.strip s).
      rewrite (handle_code_assistant_valid config http arguments s Hm Hs).
      unfold events at 1, fst.
      change (posts (?a :: HttpPost ?r :: ?t)) with (r :: posts t).
      rewrite posts_after_code. reflexivity.
Qed.

Lemma handle_universal_code_assistant_posts_eq config http arguments :
  posts (events (handle_universal_code_assistant config http arguments)) = []
  \/ exists s, posts (events (handle_universal_code_assistant config http arguments))
               = [chat_request config (universal_rag_url config) arguments s].
Proof.
  destruct (message_cases arguments) as [(v & Hm & Hv) | (s & Hm)].
  - rewrite (handle_universal_code_assistant_not_string config http arguments v Hm Hv).
    auto.
  - destruct (string_dec (Py.strip s) "") as [Hs|Hs].
    + rewrite (handle_universal_code_assistant_blank config http arguments s Hm Hs). auto.
    + right. exists (Py.strip s).
      rewrite (handle_universal_code_assistant_valid config http arguments s Hm Hs).
      unfold events at 1, fst.
      change (posts (?a :: HttpPost ?r :: ?t)) with (r :: posts t).
      rewrite posts_after_universal. reflexivity.
Qed.

(** X16. Whatever [call_tool] sends goes to the URL of the tool that was
    named: base URL followed by the chat endpoint for [code_assistant], by
    the universal endpoint for [universal_code_assistant], with the JSON
    content-type header and the configured timeout. No request is sent on
    behalf of another tool or to another address. *)
Theorem call_tool_posts_to_own_url config http tool arguments request :
  In request (posts (events (call_tool config http tool arguments))) ->
  ((tool = "code_assistant"
    /\ url request = RAG_API_BASE_URL config ++ RAG_CHAT_ENDPOINT config)
   \/ (tool = "universal_code_assistant"
       /\ url request = RAG_API_BASE_URL config ++ UNIVERSAL_RAG_ENDPOINT config))
  /\ headers request = [("Content-Type", "application/json")]
  /\ timeout request = REQUEST_TIMEOUT config.
Proof.
  unfold call_tool. rewrite call_tool_with_posts.
  destruct (handlers_get _ tool) as [h|] eqn:Hh; [|intros []].
  destruct (handlers_get_some _ _ _ _ _ Hh) as [(Ht & _ & ->) | (Ht & _ & ->)].
  - destruct (handle_code_assistant_posts_eq config http arguments) as [-> | [s ->]];
      [intros [] | intros [<- | []]].
    split; [left; split; [exact Ht | reflexivity] | split; reflexivity].
  - destruct (handle_universal_code_assistant_posts_eq config http arguments)
      as [-> | [s ->]]; [intros [] | intros [<- | []]].
    split; [right; split; [exact Ht | reflexivity] | split; reflexivity].
Qed.

Lemma call_tool_posts_to_own_url_witness :
  url (chat_request default_config "http://localhost:8900/api/chat/universal"
         [("message", PStr "hi")] "hi")
  = "http://localhost:8900" ++ "/api/chat/universal".
Proof.
  destruct (proj1 (call_tool_posts_to_own_url default_config refusing
                     "universal_code_assistant" [("message", PStr "hi")]
                     (chat_request default_config
                        "http://localhost:8900/api/chat/universal"
                        [("message", PStr "hi")] "hi")
                     (or_introl eq_refl))) as [[H _] | [_ H]].
  - discriminate H.
  - exact H.
Defined.

(** A handler on a message that passes validation is its log record
    followed by its [try] block under its [except] clauses. *)
Lemma handle_code_assistant_try config http arguments s :
  Op.get_default arguments "message" (PStr "") = PStr s ->
  Py.strip s <> "" ->
  handle_code_assistant config http arguments
  = (logger_info ("Calling RAG API: " ++ rag_chat_url config) ;;;
     try_except
       (code_assistant_try http
          (chat_request config (rag_chat_url config) arguments (Py.strip s)))
       (code_assistant_except config)).
Proof.
  intros Hm Hs. unfold handle_code_assistant. rewrite Hm.
  unfold Op.strip, lift at 1, bind at 1. cbv beta iota.
  destruct (String.eqb_spec (Py.strip s) "") as [E|_]; [contradiction|].
  reflexivity.
Qed.

Lemma handle_universal_code_assistant_try config http arguments s :
  Op.get_default arguments "message" (PStr "") = PStr s ->
  Py.strip s <> "" ->
  handle_universal_code_assistant config http arguments
  = (logger_info ("Calling Universal RAG API: " ++ universal_rag_url config) ;;;
     try_except
       (universal_code_assistant_try http
          (chat_request config (universal_rag_url config) arguments (Py.strip s)))
       (universal_code_assistant_except config)).
Proof.
  intros Hm Hs. unfold handle_universal_code_assistant. rewrite Hm.
  unfold Op.strip, lift at 1, bind at 1. cbv beta iota.
  destruct (String.eqb_spec (Py.strip s) "") as [E|_]; [contradiction|].
  reflexivity.
Qed.

(** The response mapping itself logs nothing at level ERROR. *)
Lemma code_assistant_map_response_no_error data :
  error_logs (events (code_assistant_map_response data)) = [].
Proof.
  destruct data; try reflexivity.
  rewrite code_assistant_map_response_run. reflexivity.
Qed.

Lemma universal_code_assistant_map_response_no_error data :
  error_logs (events (universal_code_assistant_map_response data)) = [].
Proof.
  destruct data; try reflexivity.
  rewrite universal_code_assistant_map_response_run. reflexivity.
Qed.

Lemma code_assistant_try_no_error http request :
  error_logs (events (code_assistant_try http request)) = [].
Proof.
  unfold code_assistant_try. step_handler.
  destruct (http request) as [response|e]; [|reflexivity]. step_handler.
  destruct (raise_for_status response) as [[]|e]; [|reflexivity]. step_handler.
  destruct (response_json response) as [data|e]; [|reflexivity].
  pose proof (code_assistant_map_response_no_error data) as H.
  destruct (code_assistant_map_response data) as [t [r|e]]; exact H.
Qed.

Lemma universal_code_assistant_try_no_error http request :
  error_logs (events (universal_code_assistant_try http request)) = [].
Proof.
  unfold universal_code_assistant_try. step_handler.
  destruct (http request) as [response|e]; [|reflexivity]. step_handler.
  destruct (raise_for_status response) as [[]|e]; [|reflexivity]. step_handler.
  destruct (response_json response) as [data|e]; [|reflexivity].
  pose proof (universal_code_assistant_map_response_no_error data) as H.
  destruct (universal_code_assistant_map_response data) as [t [r|e]]; exact H.
Qed.

(** The catch-all clause, for a [try] block that raises. *)
Lemma catch_all_run (body : M CallToolResult) handler label tyname msg :
  result body = Raise (OtherException tyname msg) ->
  error_logs (events body) = [] ->
  handler (OtherException tyname msg)
  = (logger_error ("Unexpected error: " ++ msg) ;;;
     ret (error_result ("Unexpected Error: " ++ tyname ++ ": " ++ msg))) ->
  let run := logger_info label ;;; try_except body handler in
  result run = Ok (error_result ("Unexpected Error: " ++ tyname ++ ": " ++ msg))
  /\ error_logs (events run) = ["Unexpected error: " ++ msg]
  /\ events run
     = (Log INFO label :: events body ++ [Log ERROR ("Unexpected error: " ++ msg)])%list.
Proof.
  intros Hr Ht Hh run. subst run.
  destruct body as [t [r|e]]; unfold result, events in Hr, Ht; cbn [fst snd] in Hr, Ht;
    [discriminate Hr|].
  injection Hr as ->. unfold try_except. rewrite Hh.
  unfold result, events.
  cbv beta iota delta [bind logger_info logger_error ret fst snd].
  split; [reflexivity|]. split; [|reflexivity].
  change (error_logs ([Log INFO label]
                      ++ (t ++ [Log ERROR ("Unexpected error: " ++ msg)] ++ []))%list
          = ["Unexpected error: " ++ msg]).
  rewrite !error_logs_app, Ht. reflexivity.
Qed.

(** X17. Any exception raised inside a handler's [try] block that is not a
    connection error, a timeout or a status error, wherever it comes from (the
    call of [client.post], the parsing of the body, the response mapping), is
    caught by the last clause: the handler returns "Unexpected Error: <type>:
    <message>" flagged as an error, and its only ERROR record, written last,
    is "Unexpected error: <message>". *)
Theorem unexpected_errors_reported config http arguments s tyname msg :
  Op.get_default arguments "message" (PStr "") = PStr s ->
  Py.strip s <> "" ->
  (result (code_assistant_try http
             (chat_request config (rag_chat_url config) arguments (Py.strip s)))
   = Raise (OtherException tyname msg) ->
   result (handle_code_assistant config http arguments)
   = Ok (error_result ("Unexpected Error: " ++ tyname ++ ": " ++ msg))
   /\ error_logs (events (handle_code_assistant config http arguments))
      = ["Unexpected error: " ++ msg]
   /\ events (handle_code_assistant config http arguments)
      = (Log INFO ("Calling RAG API: " ++ rag_chat_url config)
         :: events (code_assistant_try http
                      (chat_request config (rag_chat_url config) arguments (Py.strip s)))
         ++ [Log ERROR ("Unexpected error: " ++ msg)])%list)
  /\ (result (universal_code_assistant_try http
                (chat_request config (universal_rag_url config) arguments (Py.strip s)))
      = Raise (OtherException tyname msg) ->
      result (handle_universal_code_assistant config http arguments)
      = Ok (error_result ("Unexpected Error: " ++ tyname ++ ": " ++ msg))
      /\ error_logs (events (handle_universal_code_assistant config http arguments))
         = ["Unexpected error: " ++ msg]
      /\ events (handle_universal_code_assistant config http arguments)
         = (Log INFO ("Calling Universal RAG API: " ++ universal_rag_url config)
            :: events (universal_code_assistant_try http
                         (chat_request config (universal_rag_url config) arguments
                            (Py.strip s)))
            ++ [Log ERROR ("Unexpected error: " ++ msg)])%list).
Proof.
  intros Hm Hs. split; intros Hr.
  - rewrite (handle_code_assistant_try config http arguments s Hm Hs).
    apply (catch_all_run _ _ _ _ _ Hr); [apply code_assistant_try_no_error | reflexivity].
  - rewrite (handle_universal_code_assistant_try config http arguments s Hm Hs).
    apply (catch_all_run _ _ _ _ _ Hr);
      [apply universal_code_assistant_try_no_error | reflexivity].
Qed.

Lemma unexpected_errors_reported_witness :
  (result (handle_code_assistant default_config (answering 200 "<html>")
             [("message", PStr "hi")])
   = Ok (error_result
           ("Unexpected Error: JSONDecodeError: "
            ++ "Expecting value: line 1 column 1 (char 0)")))
  /\ (result (handle_universal_code_assistant default_config
                (replying (PDict [("ok", PBool true); ("chunks_count", PNone)]))
                [("message", PStr "hi")])
      = Ok (error_result
              ("Unexpected Error: TypeError: "
               ++ "'>' not supported between instances of 'NoneType' and 'int'"))).
Proof.
  split.
  - exact (proj1 (proj1 (unexpected_errors_reported default_config
                           (answering 200 "<html>") [("message", PStr "hi")] "hi"
                           "JSONDecodeError" "Expecting value: line 1 column 1 (char 0)"
                           eq_refl ltac:(vm_compute; intros H; discriminate H))
                    eq_refl)).
  - exact (proj1 (proj2 (unexpected_errors_reported default_config
                           (replying (PDict [("ok", PBool true); ("chunks_count", PNone)]))
                           [("message", PStr "hi")] "hi" "TypeError"
                           "'>' not supported between instances of 'NoneType' and 'int'"
                           eq_refl ltac:(vm_compute; intros H; discriminate H))
                    eq_refl)).
Defined.

(** ** Ill-typed fields of an accepted body *)

Ltac run_appends :=
  unfold Op.get; repeat (rewrite append_field_dict; step_handler).

Lemma code_assistant_text_bad_chunks d :
  chunks_count_is_number d = false ->
  code_assistant_text (PDict d)
  = ([], Raise (OtherException "TypeError"
                  ("'>' not supported between instances of '"
                   ++ Py.type_name (Op.get_default d "chunks_count" (PInt 0))
                   ++ "' and 'int'"))).
Proof.
  intros H. unfold code_assistant_text. run_appends.
  unfold chunks_count_is_number in H.
  destruct (Op.get_default d "chunks_count" (PInt 0)); try discriminate H; reflexivity.
Qed.

Lemma universal_code_assistant_text_bad_chunks d :
  chunks_count_is_number d = false ->
  universal_code_assistant_text (PDict d)
  = ([], Raise (OtherException "TypeError"
                  ("'>' not supported between instances of '"
                   ++ Py.type_name (Op.get_default d "chunks_count" (PInt 0))
                   ++ "' and 'int'"))).
Proof.
  intros H. unfold universal_code_assistant_text. run_appends.
  unfold chunks_count_is_number in H.
  destruct (Op.get_default d "chunks_count" (PInt 0)); try discriminate H; reflexivity.
Qed.

(** X18. When an accepted body (an object with a truthy [ok]) carries a
    [chunks_count] that is not a number, such as [null] or a string, the
    comparison with zero fails and each handler returns "Unexpected Error:
    TypeError: '>' not supported between instances of '<type>' and 'int'"
    flagged as an error, whatever the other fields hold. *)
Theorem bad_chunks_count_unexpected config http arguments s d :
  Op.get_default arguments "message" (PStr "") = PStr s ->
  Py.strip s <> "" ->
  received (http (chat_request config (rag_chat_url config) arguments (Py.strip s)))
  = Ok (PDict d) ->
  received (http (chat_request config (universal_rag_url config) arguments (Py.strip s)))
  = Ok (PDict d) ->
  Py.truthy (Op.get_default d "ok" (PBool false)) = true ->
  chunks_count_is_number d = false ->
  let complaint :=
    "'>' not supported between instances of '"
    ++ Py.type_name (Op.get_default d "chunks_count" (PInt 0)) ++ "' and 'int'" in
  result (handle_code_assistant config http arguments)
  = Ok (error_result ("Unexpected Error: TypeError: " ++ complaint))
  /\ result (handle_universal_code_assistant config http arguments)
     = Ok (error_result ("Unexpected Error: TypeError: " ++ complaint)).
Proof.
  intros Hm Hs Hc Hu Hok Hn complaint. split.
  - rewrite (handle_code_assistant_valid config http arguments s Hm Hs), Hc.
    rewrite code_assistant_map_response_dict, Hok.
    unfold code_assistant_success. rewrite (code_assistant_text_bad_chunks d Hn).
    reflexivity.
  - rewrite (handle_universal_code_assistant_valid config http arguments s Hm Hs), Hu.
    rewrite universal_code_assistant_map_response_dict, Hok.
    unfold universal_code_assistant_success.
    rewrite (universal_code_assistant_text_bad_chunks d Hn).
    reflexivity.
Qed.

Lemma bad_chunks_count_unexpected_witness :
  result (handle_universal_code_assistant default_config
            (replying (PDict [("ok", PBool true); ("answer", PStr "X");
                              ("chunks_count", PStr "3")]))
            [("message", PStr "hi")])
  = Ok (error_result
          ("Unexpected Error: TypeError: "
           ++ "'>' not supported between instances of 'str' and 'int'")).
Proof.
  exact (proj2 (bad_chunks_count_unexpected default_config
                  (replying (PDict [("ok", PBool true); ("answer", PStr "X");
                                    ("chunks_count", PStr "3")]))
                  [("message", PStr "hi")] "hi"
                  [("ok", PBool true); ("answer", PStr "X"); ("chunks_count", PStr "3")]
                  eq_refl ltac:(vm_compute; intros H; discriminate H)
                  eq_refl eq_refl eq_refl eq_refl)).
Defined.

Ltac run_bad_answer Ha Hn :=
  run_appends; rewrite (gt_zero_number _ Hn); cbv beta iota;
  unfold answer_is_text in Ha; unfold nonempty;
  destruct (Op.get_default _ "answer" PNone) as [| b | z | f | a | l | l];
  cbn [Py.truthy Py.type_name] in *; try discriminate Ha;
  [ destruct b
  | destruct (Z.eqb z 0)
  | destruct (float_sign_of f)
  | destruct l
  | destruct l ];
  cbn [negb] in *; try discriminate Ha;
  repeat match goal with
         | |- context [if ?c then _ else _] => destruct c
         end;
  reflexivity.

Lemma code_assistant_text_bad_answer d :
  answer_is_text d = false ->
  chunks_count_is_number d = true ->
  code_assistant_text (PDict d)
  = ([], Raise (OtherException "TypeError"
                  ("sequence item 0: expected str instance, "
                   ++ Py.type_name (Op.get_default d "answer" PNone) ++ " found"))).
Proof.
  intros Ha Hn. unfold code_assistant_text. run_bad_answer Ha Hn.
Qed.

Lemma universal_code_assistant_text_bad_answer d :
  answer_is_text d = false ->
  chunks_count_is_number d = true ->
  universal_code_assistant_text (PDict d)
  = ([], Raise (OtherException "TypeError"
                  ("sequence item 0: expected str instance, "
                   ++ Py.type_name (Op.get_default d "answer" PNone) ++ " found"))).
Proof.
  intros Ha Hn. unfold universal_code_assistant_text. run_bad_answer Ha Hn.
Qed.

(** X19. When an accepted body carries a non-empty [answer] that is not a
    string (a number, a list, an object, [true]) and a well-typed
    [chunks_count], joining the parts fails on the first of them and each
    handler returns "Unexpected Error: TypeError: sequence item 0: expected
    str instance, <type> found" flagged as an error. *)
Theorem bad_answer_unexpected config http arguments s d :
  Op.get_default arguments "message" (PStr "") = PStr s ->
  Py.strip s <> "" ->
  received (http (chat_request config (rag_chat_url config) arguments (Py.strip s)))
  = Ok (PDict d) ->
  received (http (chat_request config (universal_rag_url config) arguments (Py.strip s)))
  = Ok (PDict d) ->
  Py.truthy (Op.get_default d "ok" (PBool false)) = true ->
  answer_is_text d = false ->
  chunks_count_is_number d = true ->
  let complaint :=
    "sequence item 0: expected str instance, "
    ++ Py.type_name (Op.get_default d "answer" PNone) ++ " found" in
  result (handle_code_assistant config http arguments)
  = Ok (error_result ("Unexpected Error: TypeError: " ++ complaint))
  /\ result (handle_universal_code_assistant config http arguments)
     = Ok (error_result ("Unexpected Error: TypeError: " ++ complaint)).
Proof.
  intros Hm Hs Hc Hu Hok Ha Hn complaint. split.
  - rewrite (handle_code_assistant_valid config http arguments s Hm Hs), Hc.
    rewrite code_assistant_map_response_dict, Hok.
    unfold code_assistant_success. rewrite (code_assistant_text_bad_answer d Ha Hn).
    reflexivity.
  - rewrite (handle_universal_code_assistant_valid config http arguments s Hm Hs), Hu.
    rewrite universal_code_assistant_map_response_dict, Hok.
    unfold universal_code_assistant_success.
    rewrite (universal_code_assistant_text_bad_answer d Ha Hn).
    reflexivity.
Qed.

Lemma bad_answer_unexpected_witness :
  result (handle_code_assistant default_config
            (replying (PDict [("ok", PBool true);
                              ("answer", PDict [("text", PStr "X")])]))
            [("message", PStr "hi")])
  = Ok (error_result
          ("Unexpected Error: TypeError: "
           ++ "sequence item 0: expected str instance, dict found")).
Proof.
  exact (proj1 (bad_answer_unexpected default_config
                  (replying (PDict [("ok", PBool true);
                                    ("answer", PDict [("text", PStr "X")])]))
                  [("message", PStr "hi")] "hi"
                  [("ok", PBool true); ("answer", PDict [("text", PStr "X")])]
                  eq_refl ltac:(vm_compute; intros H; discriminate H)
                  eq_refl eq_refl eq_refl eq_refl eq_refl)).
Defined.
